(** * Tracelink API client: a shallow embedding of [tracelink-client.js]

    The client maps method calls onto POST requests.  Its logic lives in
    two places: [buildOrderParams], which normalises the sort / filter /
    paging options of the list calls, and [TracelinkClient.request],
    which sends a call and inspects the response envelope.  The resource
    classes ([CompanyClient], [OrderClient], ...) only assemble an
    endpoint path and a body.

    JavaScript objects are finite maps from property names to values
    ([gmap string value]); the parsed response envelope, which [request]
    mutates and then either returns or attaches to the error it throws,
    lives in a store and is handled through its reference. *)

From Stdlib Require Import ZArith String.
From stdpp Require Import gmap strings list fin_maps pretty.

Set Warnings "-register-all".
Open Scope string_scope.

(** ** JavaScript values *)

(** The values that reach the client: JSON data plus [undefined].
    Numbers are the integer-valued ones (identifiers, page indexes,
    limits, status codes); fractions and [NaN] are left out. *)
Inductive value : Type :=
  | JUndefined
  | JNull
  | JBool (b : bool)
  | JNum (n : Z)
  | JStr (s : string)
  | JArr (items : list value)
  | JObj (props : gmap string value).

Abbreviation obj := (gmap string value).

(** [if (v)]: the falsy values are [undefined], [null], [false], [0] and
    the empty string; every array and every object is truthy. *)
Definition truthy (v : value) : bool :=
  match v with
  | JUndefined | JNull => false
  | JBool b => b
  | JNum n => negb (n =? 0)%Z
  | JStr s => negb (bool_decide (s = ""))
  | JArr _ | JObj _ => true
  end.

(** [v !== undefined] *)
Definition is_defined (v : value) : bool :=
  match v with JUndefined => false | _ => true end.

(** [v === 'lit'] for a string literal: true for that very string only. *)
Definition strict_eq_string (v : value) (lit : string) : bool :=
  match v with JStr s => bool_decide (s = lit) | _ => false end.

(** [`${v}`] and [String(v)].  [Array.prototype.toString] is
    [join(',')], in which [undefined] and [null] elements give the empty
    string.  A number is printed in decimal, which is what JavaScript
    does for an integer of magnitude below 10^21; from there on it
    prints an exponent form ([1e+21]), which is not modelled: [JNum n]
    stands for an integer below that bound. *)
Fixpoint ToString (v : value) : string :=
  match v with
  | JUndefined => "undefined"
  | JNull => "null"
  | JBool b => if b then "true" else "false"
  | JNum n => pretty n
  | JStr s => s
  | JArr items =>
      String.concat ","
        (map (fun x => match x with
                       | JUndefined | JNull => ""
                       | _ => ToString x
                       end) items)
  | JObj _ => "[object Object]"
  end.

Definition join_element (x : value) : string :=
  match x with JUndefined | JNull => "" | _ => ToString x end.

(** [items.join(sep)] *)
Definition Array_join (items : list value) (sep : string) : string :=
  String.concat sep (map join_element items).

(** [o.k]: a property that is not there reads as [undefined]. *)
Definition get_prop (o : obj) (k : string) : value := default JUndefined (o !! k).

(** [Object.keys(o)] *)
Definition Object_keys (o : obj) : list string := (map_to_list o).*1.

(** An object literal [{ k: v, ...src, [e]: w }], evaluated left to
    right: a later item overwrites an earlier one with the same key, and
    a spread copies every own property of its source. *)
Inductive literal_item : Type :=
  | Field (k : string) (v : value)
  | Spread (src : obj).

Definition define_item (o : obj) (it : literal_item) : obj :=
  match it with
  | Field k v => <[k := v]> o
  | Spread src => src ∪ o
  end.

Definition object_literal (items : list literal_item) : obj :=
  foldl define_item ∅ items.

(** A parameter with the default [= {}]: the default is taken when the
    argument is left out. *)
Definition or_empty (arg : option obj) : obj := default ∅ arg.

(** ** The query-parameter normaliser *)

(** [order] is built up by one guarded assignment per option.  The
    [match] on the sort value is the test [Array.isArray(options.sort)]:
    an array is joined, anything else is stored as it is. *)
Definition buildOrderParams (options : option obj) : obj :=
  let options := or_empty options in
  let order : obj := ∅ in
  let order :=
    if truthy (get_prop options "sort") then
      <["sort" := match get_prop options "sort" with
                  | JArr items => JStr (Array_join items ",")
                  | s => s
                  end]> order
    else order in
  let order :=
    if truthy (get_prop options "reverse") then <["reverse" := JNum 1]> order
    else order in
  let order :=
    if is_defined (get_prop options "limit")
    then <["limit" := get_prop options "limit"]> order else order in
  let order :=
    if is_defined (get_prop options "page")
    then <["page" := get_prop options "page"]> order else order in
  let order :=
    if truthy (get_prop options "filter")
    then <["filter" := get_prop options "filter"]> order else order in
  let order :=
    if truthy (get_prop options "filter_or")
    then <["filter_or" := JBool true]> order else order in
  if (0 <? length (Object_keys order))%nat
  then object_literal [Field "order" (JObj order)]
  else object_literal [].

(** [params.order.k], for reading a field of the wrapper back; [None]
    when there is no wrapper or no such field in it. *)
Definition order_field (params : obj) (k : string) : option value :=
  match params !! "order" with
  | Some (JObj order) => order !! k
  | _ => None
  end.


(** ** Errors and completions *)

(** A reference to an object in the store (see below). *)
Abbreviation loc := nat.

(** [class TracelinkError extends Error]: [message] is what the [Error]
    constructor stores, [code] is set by the constructor, and [response]
    is assigned by the dispatcher afterwards; it refers to the envelope
    object. *)
Record TracelinkError : Type := {
  name : string;
  message : string;
  code : value;
  response : option loc
}.

(** [super(message)]: the [Error] constructor stores [String(message)]
    unless the argument is [undefined], in which case [message] reads as
    the empty string of [Error.prototype]. *)
Definition Error_message (m : value) : string :=
  match m with JUndefined => "" | _ => ToString m end.

Definition new_TracelinkError (m c : value) : TracelinkError :=
  {| name := "TracelinkError"; message := Error_message m; code := c;
     response := None |}.

(** [error.response = data] *)
Definition set_response (e : TracelinkError) (data : loc) : TracelinkError :=
  {| name := name e; message := message e; code := code e;
     response := Some data |}.

Inductive js_error : Type :=
  | ReferenceError (ident : string)  (* an identifier that is not bound *)
  | PlainError (msg : string)        (* [new Error(msg)] *)
  | TransportError                   (* [fetch] or [response.json()] rejects *)
  | ApiError (e : TracelinkError).

(** How a call ends: with a value or with a thrown error (for an
    [async] method: a fulfilled or a rejected promise). *)
Inductive completion (A : Type) : Type :=
  | Normal (a : A)
  | Throw (e : js_error).
Arguments Normal {A} a.
Arguments Throw {A} e.

Definition completion_bind {A B} (c : completion A) (k : A → completion B)
  : completion B :=
  match c with Normal a => k a | Throw e => Throw e end.

(** ** The store of response objects *)

(** A reference is an index into the store; [response.json()] puts the
    parsed envelope at a new index.  References come from [alloc] only,
    so they are always in range. *)
Abbreviation store := (list (gmap string value)).

(** Computations that read and write the store and may throw. *)
Definition M (A : Type) : Type := store → completion A * store.

Definition ret {A} (a : A) : M A := fun σ => (Normal a, σ).

Definition bind {A B} (m : M A) (k : A → M B) : M B :=
  fun σ => match m σ with
           | (Normal a, σ') => k a σ'
           | (Throw e, σ') => (Throw e, σ')
           end.

Definition throw {A} (e : js_error) : M A := fun σ => (Throw e, σ).

Definition lift {A} (c : completion A) : M A := fun σ => (c, σ).

Definition alloc (o : obj) : M loc :=
  fun σ => (Normal (length σ), (σ ++ [o])%list).

(** [data.k] *)
Definition read_prop (data : loc) (k : string) : M value :=
  fun σ => (Normal (get_prop (default ∅ (σ !! data)) k), σ).

(** [data.k = v] *)
Definition write_prop (data : loc) (k : string) (v : value) : M unit :=
  fun σ => (Normal tt, alter (insert k v) data σ).

Declare Scope js_scope.
Delimit Scope js_scope with js.
Notation "x <- m ;; k" := (bind m (fun x => k))
  (at level 100, m at next level, right associativity) : js_scope.
Notation "m ;;; k" := (bind m (fun _ => k))
  (at level 100, right associativity) : js_scope.

(** ** The client and its request dispatcher *)

Definition BASE_URL : string := "https://tracelink.app/rest".

Record TracelinkClient : Type := {
  access_token : value;
  format : value;
  charset : value
}.

(** [a || b] *)
Definition or_else (a b : value) : value := if truthy a then a else b.

(** [constructor(config)]; [config?.access_token] is [undefined] when
    there is no [config]. *)
Definition new_TracelinkClient (config : option obj)
  : completion TracelinkClient :=
  let token := match config with
               | Some c => get_prop c "access_token"
               | None => JUndefined
               end in
  if negb (truthy token) then Throw (PlainError "access_token is required")
  else
    let config := or_empty config in
    Normal {| access_token := get_prop config "access_token";
              format := or_else (get_prop config "format") (JStr "json");
              charset := or_else (get_prop config "charset") (JStr "UTF-8") |}.

(** What [fetch] is called with, and what it resolves to.  Header values
    are strings on the wire.  [resp_json] is the envelope object that
    [response.json()] resolves to, and [None] when [response.json()]
    rejects because the body is not JSON.  A body that is JSON but not
    an object ([null], a number, a string, an array) is not an envelope
    and has no counterpart here.  Header names are compared as they are
    spelled. *)
Record HttpRequest : Type := {
  url : string;
  method : string;
  headers : gmap string string;
  req_body : string
}.

Record HttpResponse : Type := {
  resp_headers : gmap string string;
  resp_json : option obj
}.

(** [response.headers.get(name)]: the value, or [null]. *)
Definition headers_get (r : HttpResponse) (h : string) : value :=
  match resp_headers r !! h with
  | Some s => JStr s
  | None => JNull
  end.

(** The header object of [request]. *)
Definition request_headers (this : TracelinkClient) (options : obj)
  : gmap string string :=
  let headers : gmap string string :=
    <["Accept" := if strict_eq_string (format this) "xml"
                  then "application/xml" else "application/json"]>
    (<["Content-Type" := "application/json"]>
    (<["x-access-token" := ToString (access_token this)]> ∅)) in
  let headers :=
    if strict_eq_string (charset this) "CP850"
    then <["X-Charset" := "CP850"]> headers else headers in
  let headers :=
    if truthy (get_prop options "idempotency_key")
    then <["Idempotency-Key" := ToString (get_prop options "idempotency_key")]>
           headers
    else headers in
  headers.

Definition await {A} (settled : option A) : M A :=
  match settled with
  | Some a => ret a
  | None => throw TransportError
  end.

Section Dispatcher.
(** The transport and the JSON serialiser are the runtime's. *)
Variable fetch : HttpRequest → option HttpResponse.
Variable JSON_stringify : obj → string.

(** [fetch(url, { method: 'POST', headers, body: JSON.stringify(body) })] *)
Definition fetch_call (this : TracelinkClient) (endpoint : string)
    (body options : obj) : HttpRequest :=
  {| url := BASE_URL +:+ endpoint;
     method := "POST";
     headers := request_headers this options;
     req_body := JSON_stringify body |}.

Definition request (this : TracelinkClient) (endpoint : string)
    (body options : option obj) : M loc :=
  (let body := or_empty body in
   let options := or_empty options in
   response <- await (fetch (fetch_call this endpoint body options)) ;;
   parsed <- await (resp_json response) ;;
   data <- alloc parsed ;;
   let cached_key := headers_get response "X-ResultFromCache" in
   (if truthy cached_key then
      write_prop data "_cached" (JBool true) ;;;
      write_prop data "_idempotency_key" cached_key
    else ret tt) ;;;
   status <- read_prop data "status" ;;
   if strict_eq_string status "error" then
     msg <- read_prop data "message" ;;
     c <- read_prop data "code" ;;
     let error := new_TracelinkError msg c in
     let error := set_response error data in
     throw (ApiError error)
   else ret data)%js.
End Dispatcher.

(** ** The resource classes *)

(** The arguments a method hands to [this.client.request]; [None] is an
    argument that is left out. *)
Record request_args : Type := {
  arg_endpoint : string;
  arg_body : option obj;
  arg_options : option obj
}.

Definition to_request (endpoint : string) (body options : option obj)
  : completion request_args :=
  Normal {| arg_endpoint := endpoint; arg_body := body;
            arg_options := options |}.

(** The functions declared at the top level of the file.  A call
    [f(options)] looks [f] up when it runs; a name that is not bound
    throws a [ReferenceError]. *)
Definition module_scope (ident : string) : option (option obj → obj) :=
  if decide (ident = "buildOrderParams") then Some buildOrderParams else None.

Definition call_function (ident : string) (arg : option obj)
  : completion obj :=
  match module_scope ident with
  | Some f => Normal (f arg)
  | None => Throw (ReferenceError ident)
  end.

(** A parameter with a default value, [x = d]. *)
Definition or_default (x d : value) : value :=
  if is_defined x then x else d.

(** A list call: [this.client.request(endpoint, f(options))] with
    [options = {}]. *)
Definition list_request (endpoint ident : string) (options : option obj)
  : completion request_args :=
  let options := or_empty options in
  completion_bind (call_function ident (Some options)) (fun params =>
  to_request endpoint (Some params) None).

(** [{ object: o }] *)
Definition wrap_object (o : obj) : obj :=
  object_literal [Field "object" (JObj o)].

Module CompanyClient.
Definition get : completion request_args :=
  to_request "/company" None None.

Definition listDepartments (options : option obj) :=
  list_request "/company/dept/list" "buildOrderParams" options.
End CompanyClient.

Module UserClient.
Definition get : completion request_args :=
  to_request "/user" None None.

Definition listGroups (options : option obj) :=
  list_request "/user/group/list" "buildOrderParams" options.

Definition list (options : option obj) :=
  list_request "/user/list" "buildOrderParams" options.
End UserClient.

Module OrderClient.
Definition create (data : obj) (options : option obj) :=
  to_request "/tracelink/order/create" (Some (wrap_object data))
    (Some (or_empty options)).

Definition createAutoNumbered (data : obj) (number_begin number_offset : value)
    (options : option obj) :=
  let number_begin := or_default number_begin (JNum 1000) in
  let number_offset := or_default number_offset (JNum 1) in
  let options := or_empty options in
  let order_data :=
    object_literal [Spread data; Field "use_numbering" (JNum 1);
                    Field "number_begin" number_begin;
                    Field "number_offset" number_offset] in
  to_request "/tracelink/order/create" (Some (wrap_object order_data))
    (Some options).

Definition get (order_id : value) :=
  to_request ("/tracelink/order/" +:+ ToString order_id) None None.

Definition update (order_id : value) (data : obj) (options : option obj) :=
  to_request "/tracelink/order/update"
    (Some (wrap_object (object_literal [Field "order_id" order_id;
                                        Spread data])))
    (Some (or_empty options)).

Definition delete (order_id : value) :=
  to_request "/tracelink/order/update"
    (Some (wrap_object (object_literal [Field "order_id" order_id;
                                        Field "xdelete" (JStr "1")])))
    None.

Definition uploadDocument (order_id : value) (document : obj) :=
  to_request "/tracelink/order/update"
    (Some (wrap_object (object_literal
       [Field "order_id" order_id;
        Field "image_data_encoded" (get_prop document "data");
        Field "image_description" (get_prop document "filename");
        Field "image_type" (get_prop document "type")])))
    None.

Definition addModule (module_name : string) (data : obj)
    (options : option obj) :=
  to_request ("/tracelink/order/add/object/module/" +:+ module_name)
    (Some (wrap_object data)) (Some (or_empty options)).

Definition listModule (module_name : string) (order_id order_sub_id : value)
    (options : option obj) :=
  let endpoint := "/tracelink/order/list/module/" +:+ module_name in
  let endpoint :=
    if truthy order_id then
      let endpoint := endpoint +:+ "/" +:+ ToString order_id in
      if truthy order_sub_id
      then endpoint +:+ "/" +:+ ToString order_sub_id
      else endpoint
    else endpoint in
  list_request endpoint "buildOrderParams" options.

Definition updateModule (module_name : string) (data : obj)
    (options : option obj) :=
  to_request ("/tracelink/order/update/object/module/" +:+ module_name)
    (Some (wrap_object data)) (Some (or_empty options)).

Definition deleteModule (module_name id_field : string) (id_value : value) :=
  to_request ("/tracelink/order/update/object/module/" +:+ module_name)
    (Some (wrap_object (object_literal [Field id_field id_value;
                                        Field "xdelete" (JStr "1")])))
    None.

Definition list (options : option obj) :=
  list_request "/tracelink/order/list" "buildOrderParams" options.
End OrderClient.

Module SuborderClient.
Definition create (parent_order_id : value) (data : obj)
    (options : option obj) :=
  to_request "/tracelink/suborder/create"
    (Some (wrap_object (object_literal
       [Field "parent_order_id" parent_order_id; Spread data])))
    (Some (or_empty options)).

Definition get (order_sub_id : value) :=
  to_request ("/tracelink/suborder/" +:+ ToString order_sub_id) None None.

Definition update (order_sub_id : value) (data : obj)
    (options : option obj) :=
  to_request "/tracelink/suborder/update"
    (Some (wrap_object (object_literal
       [Field "order_sub_id" order_sub_id; Spread data])))
    (Some (or_empty options)).

Definition delete (order_sub_id : value) :=
  to_request "/tracelink/suborder/update"
    (Some (wrap_object (object_literal
       [Field "order_sub_id" order_sub_id; Field "xdelete" (JStr "1")])))
    None.

(** [tracelink-client.js] calls [build_order_params] here. *)
Definition list (options : option obj) :=
  list_request "/tracelink/suborder/list" "build_order_params" options.
End SuborderClient.

Module ObjectClient.
Definition createTag (product_id count : value) :=
  let count := or_default count (JNum 1) in
  to_request "/object/create"
    (Some (wrap_object (object_literal [Field "count" count;
                                        Field "product_id" product_id])))
    None.

Definition create (module_name : string) (data : obj)
    (options : option obj) :=
  to_request ("/object/create/" +:+ module_name)
    (Some (wrap_object data)) (Some (or_empty options)).

Definition get (module_name : string) (id : value) :=
  to_request ("/object/list/module/" +:+ module_name +:+ "/" +:+ ToString id)
    None None.

Definition update (module_name : string) (data : obj)
    (options : option obj) :=
  to_request ("/object/update/" +:+ module_name)
    (Some (wrap_object data)) (Some (or_empty options)).

Definition delete (module_name id_field : string) (id_value : value) :=
  to_request ("/object/update/" +:+ module_name)
    (Some (wrap_object (object_literal [Field id_field id_value;
                                        Field "xdelete" (JStr "1")])))
    None.

Definition uploadDocument (module_name id_field : string) (id_value : value)
    (document : obj) :=
  to_request ("/object/update/" +:+ module_name)
    (Some (wrap_object (object_literal
       [Field id_field id_value;
        Field "image_data_encoded" (get_prop document "data");
        Field "image_description" (get_prop document "filename");
        Field "image_type" (get_prop document "type")])))
    None.

Definition createRelation (from_module to_module : string) (data : obj)
    (options : option obj) :=
  to_request
    ("/object/module/create/" +:+ from_module +:+ "/to/" +:+ to_module)
    (Some (wrap_object data)) (Some (or_empty options)).

Definition listRelations (from_module to_module : string)
    (to_module_id : value) (options : option obj) :=
  let endpoint :=
    "/object/module/list/" +:+ from_module +:+ "/to/" +:+ to_module in
  let endpoint :=
    if truthy to_module_id
    then endpoint +:+ "/" +:+ ToString to_module_id
    else endpoint in
  list_request endpoint "buildOrderParams" options.

Definition updateRelation (from_module to_module : string) (data : obj)
    (options : option obj) :=
  to_request
    ("/object/module/update/" +:+ from_module +:+ "/to/" +:+ to_module)
    (Some (wrap_object data)) (Some (or_empty options)).

Definition deleteRelation (from_module to_module id_field : string)
    (id_value : value) :=
  to_request
    ("/object/module/update/" +:+ from_module +:+ "/to/" +:+ to_module)
    (Some (wrap_object (object_literal [Field id_field id_value;
                                        Field "xdelete" (JStr "1")])))
    None.

Definition list (module_name : string) (options : option obj) :=
  list_request ("/object/list/module/" +:+ module_name)
    "buildOrderParams" options.
End ObjectClient.

Module UtilClient.
Definition listDocuments (module_name : string) (options : option obj) :=
  list_request ("/util/doc/list/module/" +:+ module_name)
    "buildOrderParams" options.
End UtilClient.

(** The ES-module build of the client is the same program, method for
    method, except that its [SuborderClient.list] calls
    [buildOrderParams]. *)
Module Esm.
Module SuborderClient.
Definition list (options : option obj) :=
  list_request "/tracelink/suborder/list" "buildOrderParams" options.
End SuborderClient.
End Esm.

(** [return this.client.request(...)]: the arguments are evaluated, then
    the dispatcher runs. *)
Definition dispatch (fetch : HttpRequest → option HttpResponse)
    (JSON_stringify : obj → string) (client : TracelinkClient)
    (call : completion request_args) : M loc :=
  (args <- lift call ;;
   request fetch JSON_stringify client
     (arg_endpoint args) (arg_body args) (arg_options args))%js.

(** ** Observing a call *)

(** The endpoint and the body that a method passes on, the [object]
    field of that body, and the HTTP request that [request] then hands
    to [fetch]; all [None] when the method throws before the call. *)
Definition endpoint_of (call : completion request_args) : option string :=
  match call with
  | Normal args => Some (arg_endpoint args)
  | Throw _ => None
  end.

Definition body_of (call : completion request_args) : option obj :=
  match call with
  | Normal args => arg_body args
  | Throw _ => None
  end.

Definition body_object (call : completion request_args) : option obj :=
  match body_of call with
  | Some body =>
      match body !! "object" with
      | Some (JObj o) => Some o
      | _ => None
      end
  | None => None
  end.

Definition sent_request (JSON_stringify : obj → string)
    (client : TracelinkClient) (call : completion request_args)
  : option HttpRequest :=
  match call with
  | Normal args =>
      Some (fetch_call JSON_stringify client (arg_endpoint args)
              (or_empty (arg_body args)) (or_empty (arg_options args)))
  | Throw _ => None
  end.

(** [request] from the point where [fetch] has settled: the same steps
    as in [request], as a function of what [fetch] answered.
    ([request] is this function applied to the answer of [fetch], see
    [request_handle_response].) *)
Definition handle_response (settled : option HttpResponse) : M loc :=
  (response <- await settled ;;
   parsed <- await (resp_json response) ;;
   data <- alloc parsed ;;
   let cached_key := headers_get response "X-ResultFromCache" in
   (if truthy cached_key then
      write_prop data "_cached" (JBool true) ;;;
      write_prop data "_idempotency_key" cached_key
    else ret tt) ;;;
   status <- read_prop data "status" ;;
   if strict_eq_string status "error" then
     msg <- read_prop data "message" ;;
     c <- read_prop data "code" ;;
     let error := new_TracelinkError msg c in
     let error := set_response error data in
     throw (ApiError error)
   else ret data)%js.

(** A call transmits [body] to [endpoint] with [options]: whatever the
    transport and the store, running the call consults [fetch] on one
    request, the POST to the base URL followed by [endpoint] that
    carries the headers of [options] and the serialised [body], and
    ends as the response handling makes it end on the answer to that
    request. *)
Definition transmits (JSON_stringify : obj → string)
    (client : TracelinkClient) (call : completion request_args)
    (endpoint : string) (options body : obj) : Prop :=
  ∀ (fetch : HttpRequest → option HttpResponse) (σ : store),
    dispatch fetch JSON_stringify client call σ
    = handle_response
        (fetch {| url := BASE_URL +:+ endpoint;
                  method := "POST";
                  headers := request_headers client options;
                  req_body := JSON_stringify body |}) σ.

(** What a delete sends: the endpoint, the [object] of the body, the
    HTTP method and URL of the request built from them, and the request
    that reaches [fetch], whose body is the serialised [{object: o}]. *)
Definition delete_sends (JSON_stringify : obj → string)
    (client : TracelinkClient) (call : completion request_args)
    (endpoint id_field : string) (id_value : value) : Prop :=
  endpoint_of call = Some endpoint ∧
  (∃ o : obj,
     body_object call = Some o ∧
     o !! "xdelete" = Some (JStr "1") ∧
     is_Some (o !! id_field) ∧
     (∀ k : string,
        o !! k = if decide (k = "xdelete") then Some (JStr "1")
                 else if decide (k = id_field) then Some id_value else None) ∧
     transmits JSON_stringify client call endpoint ∅
       {[ "object" := JObj o ]}) ∧
  method <$> sent_request JSON_stringify client call = Some "POST" ∧
  url <$> sent_request JSON_stringify client call
    = Some (BASE_URL +:+ endpoint).

(** The value of header [h] in the request that a call sends, if it
    sends one and the header is set. *)
Definition sent_header (JSON_stringify : obj → string)
    (client : TracelinkClient) (call : completion request_args) (h : string)
  : option string :=
  match sent_request JSON_stringify client call with
  | Some req => headers req !! h
  | None => None
  end.

(** The cache annotation on an envelope object: the two properties that
    [request] may set. *)
Definition carries_no_cache_annotation (envelope : obj) : Prop :=
  envelope !! "_cached" = None ∧ envelope !! "_idempotency_key" = None.

(** A client, a serialiser and two transports to run the dispatcher on:
    the remote service answers every request with an error envelope,
    once with the cache header and once without it. *)
Module Fixtures.
Definition client : TracelinkClient :=
  {| access_token := JStr "secret"; format := JStr "json";
     charset := JStr "UTF-8" |}.

Definition stringify (body : obj) : string := "{}".

Definition error_envelope : obj :=
  {[ "status" := JStr "error"; "code" := JNum 400;
     "message" := JStr "Bad request"; "count" := JNum 0 ]}.

Definition cached_error (req : HttpRequest) : option HttpResponse :=
  Some {| resp_headers := {[ "X-ResultFromCache" := "key-1" ]};
          resp_json := Some error_envelope |}.

Definition fresh_error (req : HttpRequest) : option HttpResponse :=
  Some {| resp_headers := ∅; resp_json := Some error_envelope |}.
End Fixtures.

(** * Properties *)

(** ** Objects *)

Lemma ToString_array (items : list value) :
  ToString (JArr items) = Array_join items ",".
Proof. reflexivity. Qed.

Lemma Object_keys_length (o : obj) : length (Object_keys o) = size o.
Proof. unfold Object_keys. rewrite length_fmap. apply length_map_to_list. Qed.

Lemma Object_keys_empty (o : obj) :
  (0 <? length (Object_keys o))%nat = false → o = ∅.
Proof.
  rewrite Object_keys_length. intros H. apply Nat.ltb_ge in H.
  apply map_size_empty_inv. lia.
Qed.

(** The wrapper that [buildOrderParams] returns holds exactly the fields
    of [order]. *)
Lemma order_field_wrap (order : obj) (k : string) :
  order_field (if (0 <? length (Object_keys order))%nat
               then object_literal [Field "order" (JObj order)]
               else object_literal []) k = order !! k.
Proof.
  destruct (0 <? length (Object_keys order))%nat eqn:E.
  - unfold order_field, object_literal. simpl. by rewrite lookup_insert_eq.
  - apply Object_keys_empty in E. subst order.
    unfold order_field, object_literal. simpl. by rewrite !lookup_empty.
Qed.

(** One guarded assignment [if (b) order.k' = v], read at [k]. *)
Lemma lookup_guarded_ne (b : bool) (k k' : string) (v : value) (o : obj) :
  k ≠ k' → (if b then <[k' := v]> o else o) !! k = o !! k.
Proof. intros Hne. destruct b; [by rewrite lookup_insert_ne|done]. Qed.

Lemma lookup_guarded_eq (b : bool) (k : string) (v : value) (o : obj) :
  o !! k = None →
  (if b then <[k := v]> o else o) !! k = if b then Some v else None.
Proof. intros Hk. destruct b; [by rewrite lookup_insert_eq|done]. Qed.

Ltac skip_guards := repeat (rewrite lookup_guarded_ne by done).

Ltac order_lookup :=
  unfold buildOrderParams;
  match goal with
  | |- context [or_empty (Some ?o)] => change (or_empty (Some o)) with o
  end;
  cbv zeta; rewrite order_field_wrap; skip_guards;
  rewrite lookup_guarded_eq by (skip_guards; apply lookup_empty);
  reflexivity.

Lemma order_field_sort (options : obj) :
  order_field (buildOrderParams (Some options)) "sort" =
  if truthy (get_prop options "sort")
  then Some (match get_prop options "sort" with
             | JArr items => JStr (Array_join items ",")
             | s => s
             end)
  else None.
Proof. order_lookup. Qed.

Lemma order_field_limit (options : obj) :
  order_field (buildOrderParams (Some options)) "limit" =
  if is_defined (get_prop options "limit")
  then Some (get_prop options "limit") else None.
Proof. order_lookup. Qed.

Lemma order_field_page (options : obj) :
  order_field (buildOrderParams (Some options)) "page" =
  if is_defined (get_prop options "page")
  then Some (get_prop options "page") else None.
Proof. order_lookup. Qed.

Lemma get_prop_insert (o : obj) (k : string) (v : value) :
  get_prop (<[k := v]> o) k = v.
Proof. unfold get_prop. by rewrite lookup_insert_eq. Qed.

Lemma join_strings (names : list string) (sep : string) :
  Array_join (JStr <$> names) sep = String.concat sep names.
Proof.
  unfold Array_join. f_equal.
  induction names as [|s names IH]; [done|].
  rewrite fmap_cons. cbn [map join_element ToString]. by rewrite IH.
Qed.

(** [buildOrderParams] never returns the wrapper around an empty
    [order]. *)
Lemma buildOrderParams_not_empty_wrapper (options : option obj) :
  buildOrderParams options ≠ {[ "order" := JObj ∅ ]}.
Proof.
  unfold buildOrderParams. cbv zeta.
  match goal with |- context [Object_keys ?o] => generalize o end.
  intros order. destruct (0 <? length (Object_keys order))%nat eqn:E.
  - unfold object_literal. simpl. intros Heq.
    apply (f_equal (lookup "order")) in Heq.
    rewrite lookup_insert_eq, lookup_singleton_eq in Heq.
    injection Heq as ->. discriminate E.
  - unfold object_literal. simpl. intros Heq.
    apply (f_equal (lookup "order")) in Heq.
    by rewrite lookup_empty, lookup_singleton_eq in Heq.
Qed.

(** ** The normaliser *)

(** C4: when no option passes its guard (sort, reverse, filter and
    filter_or falsy, limit and page undefined), and in particular for
    the empty options object and for a call without argument,
    [buildOrderParams] returns the empty object: it has no [order] key.
    For no input at all does it return [{order: {}}]. *)
Theorem buildOrderParams_nothing_requested (options : obj)
  (Hsort : truthy (get_prop options "sort") = false)
  (Hreverse : truthy (get_prop options "reverse") = false)
  (Hlimit : get_prop options "limit" = JUndefined)
  (Hpage : get_prop options "page" = JUndefined)
  (Hfilter : truthy (get_prop options "filter") = false)
  (Hfilter_or : truthy (get_prop options "filter_or") = false) :
  buildOrderParams (Some options) = ∅ ∧
  buildOrderParams (Some options) !! "order" = None ∧
  buildOrderParams (Some ∅) = ∅ ∧
  buildOrderParams None = ∅ ∧
  ∀ any : option obj, buildOrderParams any ≠ {[ "order" := JObj ∅ ]}.
Proof.
  assert (Hempty : buildOrderParams (Some options) = ∅).
  { unfold buildOrderParams.
    change (or_empty (Some options)) with options. cbv zeta.
    rewrite Hsort, Hreverse, Hlimit, Hpage, Hfilter, Hfilter_or.
    reflexivity. }
  split; [exact Hempty|]. split; [by rewrite Hempty|].
  split; [reflexivity|]. split; [reflexivity|].
  apply buildOrderParams_not_empty_wrapper.
Qed.

Lemma buildOrderParams_nothing_requested_witness :
  buildOrderParams (Some {[ "reverse" := JBool false; "sort" := JStr "" ]}) = ∅.
Proof.
  refine (proj1 (buildOrderParams_nothing_requested
                   {[ "reverse" := JBool false; "sort" := JStr "" ]}
                   _ _ _ _ _ _));
    vm_compute; reflexivity.
Defined.

(** C5, as the code has it: a sort given as a non-empty string is stored
    unchanged in [order.sort]; a sort given as a sequence of strings is
    stored as its elements joined with commas, in the order of the
    sequence. *)
Theorem buildOrderParams_sort (options : obj) (s : string)
  (names : list string) (Hs : s ≠ "") :
  order_field (buildOrderParams (Some (<["sort" := JStr s]> options))) "sort"
    = Some (JStr s) ∧
  order_field
    (buildOrderParams (Some (<["sort" := JArr (JStr <$> names)]> options)))
    "sort" = Some (JStr (String.concat "," names)) ∧
  buildOrderParams (Some {[ "sort" := JArr [JStr "a"; JStr "b"] ]})
    = {[ "order" := JObj {[ "sort" := JStr "a,b" ]} ]}.
Proof.
  split; [|split].
  - rewrite order_field_sort, get_prop_insert. simpl.
    by rewrite bool_decide_eq_false_2.
  - rewrite order_field_sort, get_prop_insert. simpl.
    by rewrite join_strings.
  - vm_compute. reflexivity.
Qed.

Lemma buildOrderParams_sort_witness :
  order_field
    (buildOrderParams (Some (<["sort" := JStr "create_date"]> ∅))) "sort"
    = Some (JStr "create_date") ∧
  order_field
    (buildOrderParams
       (Some (<["sort" := JArr (JStr <$> ["create_date"; "name"])]> ∅)))
    "sort" = Some (JStr "create_date,name").
Proof.
  destruct (buildOrderParams_sort ∅ "create_date" ["create_date"; "name"])
    as (H1 & H2 & _); [discriminate|].
  split; [exact H1|exact H2].
Defined.

(** C5 as stated fails for the empty string: it is a single string, yet
    it is not passed through, and the result has no [order.sort]. *)
Lemma buildOrderParams_sort_empty_string :
  order_field (buildOrderParams (Some {[ "sort" := JStr "" ]})) "sort"
    ≠ Some (JStr "") ∧
  buildOrderParams (Some {[ "sort" := JStr "" ]}) = ∅.
Proof. split; [vm_compute; discriminate|vm_compute; reflexivity]. Qed.

(** C6: [limit] and [page] are copied as they are into [order.limit] and
    [order.page] whenever they are not [undefined], whatever the other
    options are; zero is copied like any other value, so that
    [buildOrderParams({page: 0})] is [{order: {page: 0}}]. *)
Theorem buildOrderParams_limit_page (options : obj) (v : value)
  (Hdefined : v ≠ JUndefined) :
  order_field (buildOrderParams (Some (<["limit" := v]> options))) "limit"
    = Some v ∧
  order_field (buildOrderParams (Some (<["page" := v]> options))) "page"
    = Some v ∧
  order_field (buildOrderParams (Some (<["limit" := JNum 0]> options)))
    "limit" = Some (JNum 0) ∧
  order_field (buildOrderParams (Some (<["page" := JNum 0]> options)))
    "page" = Some (JNum 0) ∧
  buildOrderParams (Some {[ "page" := JNum 0 ]})
    = {[ "order" := JObj {[ "page" := JNum 0 ]} ]}.
Proof.
  assert (Hdef : is_defined v = true) by by destruct v.
  split; [by rewrite order_field_limit, get_prop_insert, Hdef|].
  split; [by rewrite order_field_page, get_prop_insert, Hdef|].
  split; [by rewrite order_field_limit, get_prop_insert|].
  split; [by rewrite order_field_page, get_prop_insert|].
  vm_compute. reflexivity.
Qed.

Lemma buildOrderParams_limit_page_witness :
  order_field
    (buildOrderParams (Some (<["limit" := JNum 25]> {[ "page" := JNum 0 ]})))
    "limit" = Some (JNum 25) ∧
  order_field
    (buildOrderParams (Some (<["page" := JNum 25]> {[ "page" := JNum 0 ]})))
    "page" = Some (JNum 25).
Proof.
  destruct (buildOrderParams_limit_page {[ "page" := JNum 0 ]} (JNum 25))
    as (H1 & H2 & _); [discriminate|].
  split; [exact H1|exact H2].
Defined.

(** C10: a falsy sort (absent, [null], the empty string, ...) gives no
    [sort] field, whereas the empty array, which is truthy, gives
    [order.sort] equal to the empty string, so that the result is the
    non-empty object [{order: {sort: ''}}]. *)
Theorem buildOrderParams_falsy_sort_vs_empty_array (options : obj)
  (Hfalsy : truthy (get_prop options "sort") = false) :
  order_field (buildOrderParams (Some options)) "sort" = None ∧
  (∀ others : obj,
     order_field (buildOrderParams (Some (<["sort" := JArr []]> others)))
       "sort" = Some (JStr "")) ∧
  buildOrderParams (Some {[ "sort" := JArr [] ]})
    = {[ "order" := JObj {[ "sort" := JStr "" ]} ]} ∧
  buildOrderParams (Some {[ "sort" := JStr "" ]}) = ∅ ∧
  buildOrderParams (Some {[ "sort" := JNull ]}) = ∅ ∧
  buildOrderParams (Some ∅) = ∅.
Proof.
  split; [by rewrite order_field_sort, Hfalsy|].
  split; [intros others; by rewrite order_field_sort, get_prop_insert|].
  split; [|split; [|split]]; vm_compute; reflexivity.
Qed.

Lemma buildOrderParams_falsy_sort_vs_empty_array_witness :
  order_field
    (buildOrderParams (Some {[ "sort" := JStr ""; "limit" := JNum 5 ]}))
    "sort" = None.
Proof.
  refine (proj1 (buildOrderParams_falsy_sort_vs_empty_array
                   {[ "sort" := JStr ""; "limit" := JNum 5 ]} _)).
  vm_compute. reflexivity.
Defined.

(** ** The resource classes *)

Lemma buildOrderParams_default (options : option obj) :
  buildOrderParams (Some (or_empty options)) = buildOrderParams options.
Proof. by destruct options. Qed.

(** A list call that names [buildOrderParams] passes the normalised
    options as its body. *)
Lemma list_request_bound (endpoint : string) (options : option obj) :
  list_request endpoint "buildOrderParams" options =
  Normal {| arg_endpoint := endpoint;
            arg_body := Some (buildOrderParams options);
            arg_options := None |}.
Proof.
  unfold list_request, call_function, module_scope.
  rewrite decide_True by done. simpl.
  unfold to_request. by rewrite buildOrderParams_default.
Qed.

(** A list call that names anything else throws before it builds a
    body. *)
Lemma list_request_unbound (endpoint ident : string) (options : option obj) :
  ident ≠ "buildOrderParams" →
  list_request endpoint ident options = Throw (ReferenceError ident).
Proof.
  intros Hne. unfold list_request, call_function, module_scope.
  by rewrite decide_False.
Qed.

(** The request of [sent_request] is the one that reaches [fetch]: when
    [fetch] rejects it, the call ends with that failure and the store is
    as before. *)
Lemma dispatch_reaches_fetch (fetch : HttpRequest → option HttpResponse)
    (JSON_stringify : obj → string) (client : TracelinkClient)
    (call : completion request_args) (req : HttpRequest) (σ : store) :
  sent_request JSON_stringify client call = Some req →
  fetch req = None →
  dispatch fetch JSON_stringify client call σ = (Throw TransportError, σ).
Proof.
  destruct call as [args|e]; [|done]. simpl. intros [= <-] Hnone.
  unfold dispatch, bind, lift, request, bind, await. by rewrite Hnone.
Qed.

(** The list methods other than [SuborderClient.list] of
    [tracelink-client.js], and [SuborderClient.list] of the ES-module
    build, pass [buildOrderParams(options)] as the body. *)
Lemma list_methods_body (options : option obj) (module_name from_module
    to_module : string) (order_id order_sub_id to_module_id : value) :
  body_of (CompanyClient.listDepartments options)
    = Some (buildOrderParams options) ∧
  body_of (UserClient.list options) = Some (buildOrderParams options) ∧
  body_of (UserClient.listGroups options) = Some (buildOrderParams options) ∧
  body_of (OrderClient.list options) = Some (buildOrderParams options) ∧
  body_of (OrderClient.listModule module_name order_id order_sub_id options)
    = Some (buildOrderParams options) ∧
  body_of (ObjectClient.list module_name options)
    = Some (buildOrderParams options) ∧
  body_of (ObjectClient.listRelations from_module to_module to_module_id
             options) = Some (buildOrderParams options) ∧
  body_of (UtilClient.listDocuments module_name options)
    = Some (buildOrderParams options) ∧
  body_of (Esm.SuborderClient.list options)
    = Some (buildOrderParams options).
Proof.
  unfold CompanyClient.listDepartments, UserClient.list, UserClient.listGroups,
    OrderClient.list, OrderClient.listModule, ObjectClient.list,
    ObjectClient.listRelations, UtilClient.listDocuments,
    Esm.SuborderClient.list.
  cbv zeta. rewrite !list_request_bound. simpl. tauto.
Qed.

(** C1 fails in [tracelink-client.js] at [SuborderClient.list]: the
    method calls [build_order_params], a name that nothing binds, so for
    every options value it throws a [ReferenceError]; no body is built
    and the dispatcher is never entered (the store is untouched, whatever
    the transport).  The ES-module build of the same method passes
    [buildOrderParams(options)]. *)
Theorem suborder_list_throws (options : option obj)
    (fetch : HttpRequest → option HttpResponse)
    (JSON_stringify : obj → string) (client : TracelinkClient) (σ : store) :
  SuborderClient.list options = Throw (ReferenceError "build_order_params") ∧
  body_of (SuborderClient.list options) = None ∧
  sent_request JSON_stringify client (SuborderClient.list options) = None ∧
  dispatch fetch JSON_stringify client (SuborderClient.list options) σ
    = (Throw (ReferenceError "build_order_params"), σ) ∧
  body_of (Esm.SuborderClient.list options)
    = Some (buildOrderParams options).
Proof.
  assert (H : SuborderClient.list options
              = Throw (ReferenceError "build_order_params"))
    by (apply list_request_unbound; discriminate).
  rewrite H. split; [done|]. split; [done|]. split; [done|]. split; [done|].
  unfold Esm.SuborderClient.list. by rewrite list_request_bound.
Qed.

(** C7: [order.listModule] appends the order-id segment exactly when
    [order_id] is truthy, and the suborder-id segment exactly when, in
    addition, [order_sub_id] is truthy.  So [listModule('timereg', 1040)]
    ends in [/1040], [listModule('timereg')] is the base path,
    [listModule('timereg', 1040, 7)] ends in [/1040/7], and an
    [order_id] that is 0 or absent gives the base path whatever the
    suborder id. *)
Theorem listModule_endpoint (module_name : string)
    (order_id order_sub_id : value) (options : option obj) :
  let base := "/tracelink/order/list/module/" +:+ module_name in
  endpoint_of
    (OrderClient.listModule module_name order_id order_sub_id options)
    = Some (match truthy order_id, truthy order_sub_id with
            | true, true =>
                (base +:+ "/" +:+ ToString order_id)
                  +:+ "/" +:+ ToString order_sub_id
            | true, false => base +:+ "/" +:+ ToString order_id
            | false, _ => base
            end) ∧
  endpoint_of (OrderClient.listModule module_name (JNum 0) order_sub_id
                 options) = Some base ∧
  endpoint_of (OrderClient.listModule module_name JUndefined order_sub_id
                 options) = Some base ∧
  endpoint_of (OrderClient.listModule "timereg" (JNum 1040) JUndefined None)
    = Some "/tracelink/order/list/module/timereg/1040" ∧
  endpoint_of (OrderClient.listModule "timereg" JUndefined JUndefined None)
    = Some "/tracelink/order/list/module/timereg" ∧
  endpoint_of (OrderClient.listModule "timereg" (JNum 1040) (JNum 7) None)
    = Some "/tracelink/order/list/module/timereg/1040/7" ∧
  endpoint_of (OrderClient.listModule "timereg" (JNum 0) (JNum 7) None)
    = Some "/tracelink/order/list/module/timereg".
Proof.
  intros base. unfold OrderClient.listModule. cbv zeta.
  rewrite !list_request_bound. cbn [endpoint_of arg_endpoint].
  split; [by destruct (truthy order_id), (truthy order_sub_id)|].
  split; [done|]. split; [done|].
  split; [vm_compute; reflexivity|]. split; [vm_compute; reflexivity|].
  split; vm_compute; reflexivity.
Qed.

Lemma object_literal_id_xdelete (id_field : string) (id_value : value)
    (k : string) :
  object_literal [Field id_field id_value; Field "xdelete" (JStr "1")] !! k
  = if decide (k = "xdelete") then Some (JStr "1")
    else if decide (k = id_field) then Some id_value else None.
Proof.
  unfold object_literal. simpl.
  destruct (decide (k = "xdelete")) as [->|Hx].
  - by rewrite lookup_insert_eq.
  - rewrite lookup_insert_ne by done.
    destruct (decide (k = id_field)) as [->|Hf].
    + by rewrite lookup_insert_eq.
    + rewrite lookup_insert_ne by done. apply lookup_empty.
Qed.

Lemma body_object_wrap (endpoint : string) (o : obj) (options : option obj) :
  body_object (to_request endpoint (Some (wrap_object o)) options) = Some o.
Proof.
  unfold body_object, wrap_object, object_literal. simpl.
  by rewrite lookup_insert_eq.
Qed.

(** [request] hands the request of [fetch_call] to [fetch] and then
    handles the answer. *)
Lemma request_handle_response (fetch : HttpRequest → option HttpResponse)
    (JSON_stringify : obj → string) (this : TracelinkClient)
    (endpoint : string) (body options : option obj) :
  request fetch JSON_stringify this endpoint body options
  = handle_response
      (fetch (fetch_call JSON_stringify this endpoint (or_empty body)
                (or_empty options))).
Proof. reflexivity. Qed.

Lemma transmits_to_request (JSON_stringify : obj → string)
    (client : TracelinkClient) (endpoint : string) (body : obj)
    (options : option obj) :
  transmits JSON_stringify client (to_request endpoint (Some body) options)
    endpoint (or_empty options) body.
Proof. intros fetch σ. reflexivity. Qed.

Lemma transmits_wrap_object (JSON_stringify : obj → string)
    (client : TracelinkClient) (endpoint : string) (o : obj)
    (options : option obj) :
  transmits JSON_stringify client
    (to_request endpoint (Some (wrap_object o)) options)
    endpoint (or_empty options) {[ "object" := JObj o ]}.
Proof.
  replace ({[ "object" := JObj o ]} : obj) with (wrap_object o)
    by (unfold wrap_object, object_literal; simpl; apply insert_empty).
  apply transmits_to_request.
Qed.

Lemma transmits_no_body (JSON_stringify : obj → string)
    (client : TracelinkClient) (endpoint : string) :
  transmits JSON_stringify client (to_request endpoint None None)
    endpoint ∅ ∅.
Proof. intros fetch σ. reflexivity. Qed.

Lemma transmits_list (JSON_stringify : obj → string)
    (client : TracelinkClient) (endpoint : string) (options : option obj) :
  transmits JSON_stringify client
    (list_request endpoint "buildOrderParams" options)
    endpoint ∅ (buildOrderParams options).
Proof. rewrite list_request_bound. intros fetch σ. reflexivity. Qed.

Lemma delete_sends_intro (JSON_stringify : obj → string)
    (client : TracelinkClient) (endpoint id_field : string)
    (id_value : value) :
  delete_sends JSON_stringify client
    (to_request endpoint
       (Some (wrap_object (object_literal [Field id_field id_value;
                                           Field "xdelete" (JStr "1")])))
       None)
    endpoint id_field id_value.
Proof.
  split; [done|]. split; [|done].
  eexists. split; [apply body_object_wrap|].
  split; [by rewrite object_literal_id_xdelete|].
  split; [|split; [apply object_literal_id_xdelete|]].
  - rewrite object_literal_id_xdelete.
    destruct (decide (id_field = "xdelete")); [done|].
    by rewrite decide_True.
  - exact (transmits_wrap_object JSON_stringify client endpoint _ None).
Qed.

(** C8: each delete ([order.delete], [suborder.delete],
    [order.deleteModule], [object.delete], [object.deleteRelation]) goes
    to the endpoint of the matching update method, as a POST like every
    request, with a body whose [object] holds [xdelete: '1'] and the
    identifier field (and nothing else).  That is what reaches [fetch]:
    running the delete calls [fetch] on the POST to the update URL whose
    body is the serialised [{object: o}], for any transport. *)
Theorem deletes_are_updates (JSON_stringify : obj → string)
    (client : TracelinkClient) (order_id order_sub_id id_value : value)
    (module_name from_module to_module id_field : string)
    (data : obj) (options : option obj) :
  (delete_sends JSON_stringify client (OrderClient.delete order_id)
     "/tracelink/order/update" "order_id" order_id ∧
   endpoint_of (OrderClient.delete order_id)
     = endpoint_of (OrderClient.update order_id data options)) ∧
  (delete_sends JSON_stringify client (SuborderClient.delete order_sub_id)
     "/tracelink/suborder/update" "order_sub_id" order_sub_id ∧
   endpoint_of (SuborderClient.delete order_sub_id)
     = endpoint_of (SuborderClient.update order_sub_id data options)) ∧
  (delete_sends JSON_stringify client
     (OrderClient.deleteModule module_name id_field id_value)
     ("/tracelink/order/update/object/module/" +:+ module_name)
     id_field id_value ∧
   endpoint_of (OrderClient.deleteModule module_name id_field id_value)
     = endpoint_of (OrderClient.updateModule module_name data options)) ∧
  (delete_sends JSON_stringify client
     (ObjectClient.delete module_name id_field id_value)
     ("/object/update/" +:+ module_name) id_field id_value ∧
   endpoint_of (ObjectClient.delete module_name id_field id_value)
     = endpoint_of (ObjectClient.update module_name data options)) ∧
  (delete_sends JSON_stringify client
     (ObjectClient.deleteRelation from_module to_module id_field id_value)
     ("/object/module/update/" +:+ from_module +:+ "/to/" +:+ to_module)
     id_field id_value ∧
   endpoint_of
     (ObjectClient.deleteRelation from_module to_module id_field id_value)
     = endpoint_of
         (ObjectClient.updateRelation from_module to_module data options)).
Proof.
  pose proof (delete_sends_intro JSON_stringify client) as Hsends.
  split; [split; [exact (Hsends _ _ _)|reflexivity]|].
  split; [split; [exact (Hsends _ _ _)|reflexivity]|].
  split; [split; [exact (Hsends _ _ _)|reflexivity]|].
  split; [split; [exact (Hsends _ _ _)|reflexivity]|].
  split; [exact (Hsends _ _ _)|reflexivity].
Qed.

(** [{ key: id, ...data }] read at [k]: the value of [data] if it has
    one, else [id] at [key]. *)
Lemma object_literal_field_spread (key : string) (id : value) (data : obj)
    (k : string) :
  object_literal [Field key id; Spread data] !! k
  = match data !! k with
    | Some v => Some v
    | None => if decide (k = key) then Some id else None
    end.
Proof.
  unfold object_literal. simpl. rewrite lookup_union.
  destruct (data !! k) as [v|] eqn:Hk.
  - by destruct (<[key:=id]> (∅ : obj) !! k).
  - rewrite left_id by apply _. destruct (decide (k = key)) as [->|Hne].
    + by rewrite lookup_insert_eq.
    + rewrite lookup_insert_ne by done. apply lookup_empty.
Qed.

(** C9: in [order.update], [suborder.create] and [suborder.update] the
    data fields are spread after the identifier field, so the identifier
    in the transmitted [object] is the one of [data] whenever [data] has
    that key, and the positional argument only otherwise; every other
    field is the one of [data].  The merged object is what is sent:
    running the method calls [fetch] on the POST whose body is the
    serialised [{object: o}], with the headers of the call's options. *)
Theorem data_overrides_identifier (JSON_stringify : obj → string)
    (client : TracelinkClient) (order_id parent_order_id order_sub_id : value)
    (data : obj) (options : option obj) (k : string) :
  (∃ o : obj,
     body_object (OrderClient.update order_id data options) = Some o ∧
     o !! "order_id" = Some (default order_id (data !! "order_id")) ∧
     o !! k = match data !! k with
              | Some v => Some v
              | None => if decide (k = "order_id") then Some order_id
                        else None
              end ∧
     transmits JSON_stringify client
       (OrderClient.update order_id data options)
       "/tracelink/order/update" (or_empty options)
       {[ "object" := JObj o ]}) ∧
  (∃ o : obj,
     body_object (SuborderClient.create parent_order_id data options)
       = Some o ∧
     o !! "parent_order_id"
       = Some (default parent_order_id (data !! "parent_order_id")) ∧
     o !! k = match data !! k with
              | Some v => Some v
              | None => if decide (k = "parent_order_id")
                        then Some parent_order_id else None
              end ∧
     transmits JSON_stringify client
       (SuborderClient.create parent_order_id data options)
       "/tracelink/suborder/create" (or_empty options)
       {[ "object" := JObj o ]}) ∧
  (∃ o : obj,
     body_object (SuborderClient.update order_sub_id data options) = Some o ∧
     o !! "order_sub_id"
       = Some (default order_sub_id (data !! "order_sub_id")) ∧
     o !! k = match data !! k with
              | Some v => Some v
              | None => if decide (k = "order_sub_id") then Some order_sub_id
                        else None
              end ∧
     transmits JSON_stringify client
       (SuborderClient.update order_sub_id data options)
       "/tracelink/suborder/update" (or_empty options)
       {[ "object" := JObj o ]}) ∧
  body_object (OrderClient.update (JNum 5) {[ "order_id" := JNum 9 ]} None)
    = Some {[ "order_id" := JNum 9 ]} ∧
  transmits JSON_stringify client
    (OrderClient.update (JNum 5) {[ "order_id" := JNum 9 ]} None)
    "/tracelink/order/update" ∅
    {[ "object" := JObj {[ "order_id" := JNum 9 ]} ]}.
Proof.
  assert (Hid : ∀ key id,
    object_literal [Field key id; Spread data] !! key
    = Some (default id (data !! key))).
  { intros key id. rewrite object_literal_field_spread.
    destruct (data !! key); [done|]. by rewrite decide_True. }
  pose proof (transmits_wrap_object JSON_stringify client) as Hsent.
  split; [|split; [|split; [|split]]].
  - eexists. split; [apply body_object_wrap|].
    split; [apply Hid|]. split; [apply object_literal_field_spread|].
    exact (Hsent _ _ (Some (or_empty options))).
  - eexists. split; [apply body_object_wrap|].
    split; [apply Hid|]. split; [apply object_literal_field_spread|].
    exact (Hsent _ _ (Some (or_empty options))).
  - eexists. split; [apply body_object_wrap|].
    split; [apply Hid|]. split; [apply object_literal_field_spread|].
    exact (Hsent _ _ (Some (or_empty options))).
  - vm_compute. reflexivity.
  - assert (Hobj : object_literal [Field "order_id" (JNum 5);
                                   Spread ({[ "order_id" := JNum 9 ]} : obj)]
                   = {[ "order_id" := JNum 9 ]})
      by (vm_compute; reflexivity).
    unfold OrderClient.update. rewrite Hobj.
    exact (Hsent _ _ (Some ∅)).
Qed.

(** ** The dispatcher *)

Lemma store_lookup_alloc (σ : store) (o : obj) :
  (σ ++ [o])%list !! length σ = Some o.
Proof. by rewrite lookup_app_r, Nat.sub_diag by lia. Qed.

Lemma store_alter_alloc (σ : store) (o : obj) (f : obj → obj) :
  alter f (length σ) (σ ++ [o])%list = (σ ++ [f o])%list.
Proof.
  induction σ as [|x σ IH]; [done|]. simpl. f_equal. exact IH.
Qed.

(** One run of [request] on a response whose body parses: the envelope
    is put at the next free reference, annotated when the cache header
    has a non-empty value, and then thrown inside the error or
    returned, by reference in both cases. *)
Lemma request_run (fetch : HttpRequest → option HttpResponse)
    (JSON_stringify : obj → string) (this : TracelinkClient)
    (endpoint : string) (body options : option obj) (σ : store)
    (resp : HttpResponse) (env : obj) :
  fetch (fetch_call JSON_stringify this endpoint (or_empty body)
           (or_empty options)) = Some resp →
  resp_json resp = Some env →
  request fetch JSON_stringify this endpoint body options σ =
  let cached_key := headers_get resp "X-ResultFromCache" in
  let envelope :=
    if truthy cached_key
    then <["_idempotency_key" := cached_key]> (<["_cached" := JBool true]> env)
    else env in
  (if strict_eq_string (get_prop env "status") "error"
   then Throw (ApiError {| name := "TracelinkError";
                           message := Error_message (get_prop env "message");
                           code := get_prop env "code";
                           response := Some (length σ) |})
   else Normal (length σ),
   (σ ++ [envelope])%list).
Proof.
  intros Hfetch Hjson. unfold request. cbv zeta.
  unfold bind at 1. unfold await at 1. rewrite Hfetch. unfold ret at 1.
  unfold bind at 1. unfold await at 1. rewrite Hjson. unfold ret at 1.
  unfold bind at 1. unfold alloc at 1.
  destruct (truthy (headers_get resp "X-ResultFromCache")) eqn:Hck.
  - unfold bind, write_prop, read_prop, throw, ret.
    rewrite !store_alter_alloc, store_lookup_alloc. simpl.
    unfold get_prop. rewrite !lookup_insert_ne by done.
    destruct (strict_eq_string (default JUndefined (env !! "status"))
                "error"); [|done].
    rewrite !store_lookup_alloc. simpl.
    by rewrite !lookup_insert_ne by done.
  - unfold bind, read_prop, throw, ret.
    rewrite store_lookup_alloc. simpl.
    destruct (strict_eq_string (get_prop env "status") "error"); [|done].
    by rewrite !store_lookup_alloc.
Qed.

Lemma strict_eq_string_true (v : value) (lit : string) :
  strict_eq_string v lit = true ↔ v = JStr lit.
Proof.
  destruct v; simpl; try (split; [discriminate|discriminate]).
  rewrite bool_decide_eq_true. split; [by intros ->|by intros [= ->]].
Qed.

(** C3: on a parsed envelope, [request] throws exactly when the status
    is the string ['error'].  The error is a [TracelinkError] whose
    message and code are those of the envelope and whose [response] is
    the envelope object itself; for any other status that same object is
    returned.  The object holds the parsed fields, changed only by the
    cache annotation. *)
Theorem request_raises_iff_error_status
    (fetch : HttpRequest → option HttpResponse)
    (JSON_stringify : obj → string) (this : TracelinkClient)
    (endpoint : string) (body options : option obj) (σ : store)
    (resp : HttpResponse) (env : obj)
    (Hfetch : fetch (fetch_call JSON_stringify this endpoint (or_empty body)
                       (or_empty options)) = Some resp)
    (Hjson : resp_json resp = Some env) :
  let out := (request fetch JSON_stringify this endpoint body options σ).1 in
  let σ' := (request fetch JSON_stringify this endpoint body options σ).2 in
  let data := length σ in
  let cached_key := headers_get resp "X-ResultFromCache" in
  ((∃ err, out = Throw err) ↔ get_prop env "status" = JStr "error") ∧
  (get_prop env "status" = JStr "error" →
   ∃ e : TracelinkError,
     out = Throw (ApiError e) ∧
     name e = "TracelinkError" ∧
     message e = Error_message (get_prop env "message") ∧
     (∀ m : string, get_prop env "message" = JStr m → message e = m) ∧
     code e = get_prop env "code" ∧
     response e = Some data) ∧
  (get_prop env "status" ≠ JStr "error" → out = Normal data) ∧
  ∃ envelope : obj,
    σ' !! data = Some envelope ∧
    (∀ k : string,
       k ≠ "_cached" → k ≠ "_idempotency_key" → envelope !! k = env !! k) ∧
    (truthy cached_key = false → envelope = env) ∧
    (truthy cached_key = true →
     envelope = <["_idempotency_key" := cached_key]>
                  (<["_cached" := JBool true]> env)).
Proof.
  intros out σ' data cached_key. subst out σ'.
  rewrite (request_run _ _ _ _ _ _ _ resp env Hfetch Hjson). cbv zeta.
  cbn [fst snd]. fold cached_key. fold data.
  pose proof (strict_eq_string_true (get_prop env "status") "error") as Hst.
  destruct (strict_eq_string (get_prop env "status") "error") eqn:Ecmp.
  - assert (Herr : get_prop env "status" = JStr "error") by by apply Hst.
    split; [split; [done|by eexists]|].
    split.
    { intros _. eexists. split; [reflexivity|]. simpl.
      split; [done|]. split; [done|]. split; [|done].
      by intros m ->. }
    split; [done|].
    eexists. split; [apply store_lookup_alloc|].
    split; [|by destruct (truthy cached_key)].
    intros k Hk1 Hk2. destruct (truthy cached_key); [|done].
    by rewrite !lookup_insert_ne.
  - assert (Hne : get_prop env "status" ≠ JStr "error").
    { intros Heq. apply Hst in Heq. discriminate. }
    split; [split; [by intros [err [=]]|done]|].
    split; [done|]. split; [done|].
    eexists. split; [apply store_lookup_alloc|].
    split; [|by destruct (truthy cached_key)].
    intros k Hk1 Hk2. destruct (truthy cached_key); [|done].
    by rewrite !lookup_insert_ne.
Qed.

Lemma request_raises_iff_error_status_witness :
  ∃ e : TracelinkError,
    (request Fixtures.fresh_error Fixtures.stringify Fixtures.client
       "/user" None None []).1 = Throw (ApiError e) ∧
    message e = "Bad request" ∧ code e = JNum 400 ∧ response e = Some 0.
Proof.
  destruct (request_raises_iff_error_status Fixtures.fresh_error
              Fixtures.stringify Fixtures.client "/user" None None []
              {| resp_headers := ∅;
                 resp_json := Some Fixtures.error_envelope |}
              Fixtures.error_envelope eq_refl eq_refl)
    as (_ & Herr & _).
  destruct Herr as (e & Hout & _ & Hmsg & _ & Hcode & Hresp);
    [vm_compute; reflexivity|].
  exists e. split; [exact Hout|]. split; [exact Hmsg|].
  split; [exact Hcode|exact Hresp].
Defined.

(** C2, as the code has it: the cache annotation is made before the
    status check, on the envelope object that is then thrown or
    returned.  So for a response with status ['error'] the envelope
    attached to the error carries [_cached = true] and
    [_idempotency_key] equal to the header value whenever the cache
    header is present with a non-empty value; it is the parsed envelope,
    unchanged, when the header is absent or empty. *)
Theorem error_envelope_annotation
    (fetch : HttpRequest → option HttpResponse)
    (JSON_stringify : obj → string) (this : TracelinkClient)
    (endpoint : string) (body options : option obj) (σ : store)
    (resp : HttpResponse) (env : obj)
    (Hfetch : fetch (fetch_call JSON_stringify this endpoint (or_empty body)
                       (or_empty options)) = Some resp)
    (Hjson : resp_json resp = Some env)
    (Herr : get_prop env "status" = JStr "error") :
  ∃ (e : TracelinkError) (envelope : obj),
    (request fetch JSON_stringify this endpoint body options σ).1
      = Throw (ApiError e) ∧
    response e = Some (length σ) ∧
    (request fetch JSON_stringify this endpoint body options σ).2
      !! length σ = Some envelope ∧
    match resp_headers resp !! "X-ResultFromCache" with
    | Some key =>
        if decide (key = "") then envelope = env
        else envelope !! "_cached" = Some (JBool true) ∧
             envelope !! "_idempotency_key" = Some (JStr key) ∧
             ¬ carries_no_cache_annotation envelope
    | None => envelope = env
    end.
Proof.
  rewrite (request_run _ _ _ _ _ _ _ resp env Hfetch Hjson). cbv zeta.
  cbn [fst snd]. rewrite Herr. simpl.
  eexists _, _. split; [reflexivity|]. split; [reflexivity|].
  split; [apply store_lookup_alloc|].
  unfold headers_get.
  destruct (resp_headers resp !! "X-ResultFromCache") as [key|]; [|done].
  simpl. destruct (decide (key = "")) as [->|Hkey]; [done|].
  rewrite bool_decide_eq_false_2 by done. simpl.
  split; [by rewrite lookup_insert_ne, lookup_insert_eq|].
  split; [by rewrite lookup_insert_eq|].
  intros [Hc _]. by rewrite lookup_insert_ne, lookup_insert_eq in Hc.
Qed.

Lemma error_envelope_annotation_witness :
  ∃ (e : TracelinkError) (envelope : obj),
    (request Fixtures.cached_error Fixtures.stringify Fixtures.client
       "/tracelink/order/create" None None []).1 = Throw (ApiError e) ∧
    response e = Some 0 ∧
    (request Fixtures.cached_error Fixtures.stringify Fixtures.client
       "/tracelink/order/create" None None []).2 !! 0 = Some envelope ∧
    envelope !! "_cached" = Some (JBool true) ∧
    envelope !! "_idempotency_key" = Some (JStr "key-1").
Proof.
  destruct (error_envelope_annotation Fixtures.cached_error
              Fixtures.stringify Fixtures.client "/tracelink/order/create"
              None None []
              {| resp_headers := {[ "X-ResultFromCache" := "key-1" ]};
                 resp_json := Some Fixtures.error_envelope |}
              Fixtures.error_envelope eq_refl eq_refl)
    as (e & envelope & Hout & Hresp & Hstore & Hann);
    [vm_compute; reflexivity|].
  exists e, envelope. split; [exact Hout|]. split; [exact Hresp|].
  split; [exact Hstore|].
  change (envelope !! "_cached" = Some (JBool true) ∧
          envelope !! "_idempotency_key" = Some (JStr "key-1") ∧
          ¬ carries_no_cache_annotation envelope) in Hann.
  destruct Hann as (Hc & Hk & _). split; [exact Hc|exact Hk].
Defined.

(** C2 as stated fails: the service answers with an error envelope and
    the cache header [X-ResultFromCache: key-1]; the envelope attached
    to the thrown error carries the annotation. *)
Lemma error_envelope_is_annotated :
  get_prop Fixtures.error_envelope "status" = JStr "error" ∧
  ∃ (e : TracelinkError) (envelope : obj),
    (request Fixtures.cached_error Fixtures.stringify Fixtures.client
       "/tracelink/order/create" None None []).1 = Throw (ApiError e) ∧
    response e = Some 0 ∧
    (request Fixtures.cached_error Fixtures.stringify Fixtures.client
       "/tracelink/order/create" None None []).2 !! 0 = Some envelope ∧
    envelope !! "_cached" = Some (JBool true) ∧
    envelope !! "_idempotency_key" = Some (JStr "key-1") ∧
    ¬ carries_no_cache_annotation envelope.
Proof.
  split; [vm_compute; reflexivity|].
  rewrite (request_run Fixtures.cached_error Fixtures.stringify
             Fixtures.client "/tracelink/order/create" None None []
             {| resp_headers := {[ "X-ResultFromCache" := "key-1" ]};
                resp_json := Some Fixtures.error_envelope |}
             Fixtures.error_envelope eq_refl eq_refl).
  exists {| name := "TracelinkError"; message := "Bad request";
            code := JNum 400; response := Some 0 |},
         (<["_idempotency_key" := JStr "key-1"]>
            (<["_cached" := JBool true]> Fixtures.error_envelope)).
  split; [vm_compute; reflexivity|]. split; [reflexivity|].
  split; [reflexivity|].
  split; [by rewrite lookup_insert_ne, lookup_insert_eq|].
  split; [by rewrite lookup_insert_eq|].
  intros [Hc _]. by rewrite lookup_insert_ne, lookup_insert_eq in Hc.
Qed.

(** * Further properties *)

(** ** The normaliser, option by option *)

Lemma order_field_reverse (options : obj) :
  order_field (buildOrderParams (Some options)) "reverse" =
  if truthy (get_prop options "reverse") then Some (JNum 1) else None.
Proof. order_lookup. Qed.

Lemma order_field_filter (options : obj) :
  order_field (buildOrderParams (Some options)) "filter" =
  if truthy (get_prop options "filter")
  then Some (get_prop options "filter") else None.
Proof. order_lookup. Qed.

Lemma order_field_filter_or (options : obj) :
  order_field (buildOrderParams (Some options)) "filter_or" =
  if truthy (get_prop options "filter_or") then Some (JBool true) else None.
Proof. order_lookup. Qed.

Lemma order_field_other (options : obj) (k : string) :
  k ≠ "sort" → k ≠ "reverse" → k ≠ "limit" → k ≠ "page" → k ≠ "filter" →
  k ≠ "filter_or" →
  order_field (buildOrderParams (Some options)) k = None.
Proof.
  intros H1 H2 H3 H4 H5 H6. unfold buildOrderParams. cbv zeta.
  rewrite order_field_wrap. skip_guards. apply lookup_empty.
Qed.

(** The result is either the empty object or the wrapper around a
    non-empty [order]. *)
Lemma buildOrderParams_cases (options : option obj) :
  (buildOrderParams options = ∅ ∧
   ∀ k, order_field (buildOrderParams options) k = None) ∨
  (∃ order : obj,
     order ≠ ∅ ∧ buildOrderParams options = {[ "order" := JObj order ]} ∧
     ∀ k, order_field (buildOrderParams options) k = order !! k).
Proof.
  unfold buildOrderParams. cbv zeta.
  match goal with |- context [Object_keys ?o] => generalize o end.
  intros order. destruct (0 <? length (Object_keys order))%nat eqn:E.
  - right. exists order. split; [by intros ->|].
    unfold object_literal, order_field. simpl. rewrite insert_empty.
    split; [done|]. intros k. by rewrite lookup_singleton_eq.
  - left. unfold object_literal, order_field. simpl. split; [done|].
    intros k. by rewrite lookup_empty.
Qed.

(** X1: [reverse] is sent as the number 1 and [filter_or] as [true],
    each exactly when the option is truthy (a [false], [0] or missing
    option sends no field, never an explicit false); [filter] is
    forwarded as it is whenever it is truthy, so also when it is the
    empty mapping. *)
Theorem buildOrderParams_flags (options : obj) :
  order_field (buildOrderParams (Some options)) "reverse"
    = (if truthy (get_prop options "reverse") then Some (JNum 1) else None) ∧
  order_field (buildOrderParams (Some options)) "filter_or"
    = (if truthy (get_prop options "filter_or") then Some (JBool true)
       else None) ∧
  order_field (buildOrderParams (Some options)) "filter"
    = (if truthy (get_prop options "filter")
       then Some (get_prop options "filter") else None) ∧
  order_field
    (buildOrderParams (Some (<["reverse" := JBool false]> options)))
    "reverse" = None ∧
  (∀ exprs : obj,
     order_field
       (buildOrderParams (Some (<["filter" := JObj exprs]> options)))
       "filter" = Some (JObj exprs)).
Proof.
  split; [apply order_field_reverse|]. split; [apply order_field_filter_or|].
  split; [apply order_field_filter|].
  split; [by rewrite order_field_reverse, get_prop_insert|].
  intros exprs. by rewrite order_field_filter, get_prop_insert.
Qed.

(** X2: the result of [buildOrderParams] has no key other than [order],
    and [order] has no field other than the six recognised ones: an
    option of any other name is never forwarded. *)
Theorem buildOrderParams_only_known_fields (options : option obj)
    (k : string) :
  (k ≠ "order" → buildOrderParams options !! k = None) ∧
  (k ≠ "sort" → k ≠ "reverse" → k ≠ "limit" → k ≠ "page" → k ≠ "filter" →
   k ≠ "filter_or" → order_field (buildOrderParams options) k = None).
Proof.
  split.
  - intros Hk.
    destruct (buildOrderParams_cases options)
      as [[-> _]|(order & _ & -> & _)].
    + apply lookup_empty.
    + by rewrite lookup_singleton_ne.
  - destruct options as [options|].
    + apply order_field_other.
    + intros. apply (order_field_other ∅); done.
Qed.

Lemma buildOrderParams_only_known_fields_witness :
  buildOrderParams (Some {[ "offset" := JNum 3; "page" := JNum 2 ]})
    !! "offset" = None ∧
  order_field
    (buildOrderParams (Some {[ "offset" := JNum 3; "page" := JNum 2 ]}))
    "offset" = None.
Proof.
  destruct (buildOrderParams_only_known_fields
              (Some {[ "offset" := JNum 3; "page" := JNum 2 ]}) "offset")
    as [H1 H2].
  split; [apply H1; discriminate|apply H2; discriminate].
Defined.

Lemma order_field_wrapper (params : obj) (k : string) (v : value) :
  order_field params k = Some v → is_Some (params !! "order").
Proof.
  unfold order_field. destruct (params !! "order") as [w|]; [|done].
  by eexists.
Qed.

(** X3: [buildOrderParams] returns the [order] wrapper exactly when at
    least one option passes its guard, and then the wrapped object is
    not empty; otherwise it returns the empty object. *)
Theorem buildOrderParams_wrapper_iff_requested (options : obj) :
  if truthy (get_prop options "sort") || truthy (get_prop options "reverse")
     || is_defined (get_prop options "limit")
     || is_defined (get_prop options "page")
     || truthy (get_prop options "filter")
     || truthy (get_prop options "filter_or")
  then ∃ order : obj,
         order ≠ ∅ ∧
         buildOrderParams (Some options) = {[ "order" := JObj order ]}
  else buildOrderParams (Some options) = ∅.
Proof.
  pose proof (order_field_sort options) as Hsort.
  pose proof (order_field_reverse options) as Hreverse.
  pose proof (order_field_limit options) as Hlimit.
  pose proof (order_field_page options) as Hpage.
  pose proof (order_field_filter options) as Hfilter.
  pose proof (order_field_filter_or options) as Hfilter_or.
  pose proof (order_field_other options) as Hother.
  destruct (buildOrderParams_cases (Some options))
    as [[Hempty Hnone]|(order & Hne & Heq & Hfields)].
  - rewrite Hnone in Hsort, Hreverse, Hlimit, Hpage, Hfilter, Hfilter_or.
    destruct (truthy (get_prop options "sort")); [done|].
    destruct (truthy (get_prop options "reverse")); [done|].
    destruct (is_defined (get_prop options "limit")); [done|].
    destruct (is_defined (get_prop options "page")); [done|].
    destruct (truthy (get_prop options "filter")); [done|].
    destruct (truthy (get_prop options "filter_or")); [done|].
    exact Hempty.
  - rewrite Hfields in Hsort, Hreverse, Hlimit, Hpage, Hfilter, Hfilter_or.
    destruct (truthy (get_prop options "sort")); [by exists order|].
    destruct (truthy (get_prop options "reverse")); [by exists order|].
    destruct (is_defined (get_prop options "limit")); [by exists order|].
    destruct (is_defined (get_prop options "page")); [by exists order|].
    destruct (truthy (get_prop options "filter")); [by exists order|].
    destruct (truthy (get_prop options "filter_or")); [by exists order|].
    exfalso. apply Hne. apply map_eq. intros k. rewrite lookup_empty.
    destruct (decide (k = "sort")) as [->|?]; [done|].
    destruct (decide (k = "reverse")) as [->|?]; [done|].
    destruct (decide (k = "limit")) as [->|?]; [done|].
    destruct (decide (k = "page")) as [->|?]; [done|].
    destruct (decide (k = "filter")) as [->|?]; [done|].
    destruct (decide (k = "filter_or")) as [->|?]; [done|].
    rewrite <- Hfields. by apply Hother.
Qed.

(** X4: [buildOrderParams] reads the six recognised options and nothing
    else: two option objects that agree on them give the same result,
    whatever else they hold. *)
Theorem buildOrderParams_reads_six_options (options1 options2 : obj)
  (Hsort : get_prop options1 "sort" = get_prop options2 "sort")
  (Hreverse : get_prop options1 "reverse" = get_prop options2 "reverse")
  (Hlimit : get_prop options1 "limit" = get_prop options2 "limit")
  (Hpage : get_prop options1 "page" = get_prop options2 "page")
  (Hfilter : get_prop options1 "filter" = get_prop options2 "filter")
  (Hfilter_or : get_prop options1 "filter_or"
                = get_prop options2 "filter_or") :
  buildOrderParams (Some options1) = buildOrderParams (Some options2).
Proof.
  unfold buildOrderParams.
  change (or_empty (Some options1)) with options1.
  change (or_empty (Some options2)) with options2.
  cbv zeta.
  by rewrite Hsort, Hreverse, Hlimit, Hpage, Hfilter, Hfilter_or.
Qed.

Lemma buildOrderParams_reads_six_options_witness :
  buildOrderParams
    (Some {[ "sort" := JStr "name"; "idempotency_key" := JStr "k" ]})
  = buildOrderParams (Some {[ "sort" := JStr "name" ]}).
Proof.
  refine (buildOrderParams_reads_six_options
            {[ "sort" := JStr "name"; "idempotency_key" := JStr "k" ]}
            {[ "sort" := JStr "name" ]} _ _ _ _ _ _);
    vm_compute; reflexivity.
Defined.

(** ** The constructor and the request headers *)

(** X5: the constructor throws ['access_token is required'] exactly when
    the token is falsy: no configuration at all, no [access_token] in
    it, or an empty one.  It throws nothing else, and a client that is
    built holds the token of the configuration. *)
Theorem new_TracelinkClient_requires_token (config : obj) :
  (new_TracelinkClient (Some config)
     = Throw (PlainError "access_token is required")
   ↔ truthy (get_prop config "access_token") = false) ∧
  ((∃ client, new_TracelinkClient (Some config) = Normal client ∧
              access_token client = get_prop config "access_token")
   ↔ truthy (get_prop config "access_token") = true) ∧
  new_TracelinkClient None = Throw (PlainError "access_token is required") ∧
  new_TracelinkClient (Some (delete "access_token" config))
    = Throw (PlainError "access_token is required") ∧
  new_TracelinkClient (Some (<["access_token" := JStr ""]> config))
    = Throw (PlainError "access_token is required").
Proof.
  split; [|split; [|split; [done|split]]].
  - unfold new_TracelinkClient.
    destruct (truthy (get_prop config "access_token")); simpl; by split.
  - unfold new_TracelinkClient.
    destruct (truthy (get_prop config "access_token")); simpl.
    + split; [done|]. intros _. by eexists.
    + split; [by intros (client & [=] & _)|done].
  - unfold new_TracelinkClient, get_prop. by rewrite lookup_delete_eq.
  - unfold new_TracelinkClient. by rewrite get_prop_insert.
Qed.

(** X6: a client that is built keeps a truthy [format] and [charset] as
    given (no value is rejected) and takes ['json'] and ['UTF-8'] for
    one that is missing or falsy, such as the empty string. *)
Theorem new_TracelinkClient_defaults (config : obj)
  (Htoken : truthy (get_prop config "access_token") = true) :
  ∃ client : TracelinkClient,
    new_TracelinkClient (Some config) = Normal client ∧
    format client = (if truthy (get_prop config "format")
                     then get_prop config "format" else JStr "json") ∧
    charset client = (if truthy (get_prop config "charset")
                      then get_prop config "charset" else JStr "UTF-8") ∧
    (config !! "format" = None → format client = JStr "json") ∧
    (config !! "charset" = None → charset client = JStr "UTF-8") ∧
    (get_prop config "format" = JStr "" → format client = JStr "json").
Proof.
  unfold new_TracelinkClient. rewrite Htoken. simpl.
  eexists. split; [reflexivity|]. simpl. unfold or_else.
  split; [done|]. split; [done|].
  split; [|split].
  - intros Hnone. unfold get_prop. by rewrite Hnone.
  - intros Hnone. unfold get_prop. by rewrite Hnone.
  - intros Hempty. by rewrite Hempty.
Qed.

Lemma new_TracelinkClient_defaults_witness :
  ∃ client : TracelinkClient,
    new_TracelinkClient (Some {[ "access_token" := JStr "secret" ]})
      = Normal client ∧
    format client = JStr "json" ∧ charset client = JStr "UTF-8".
Proof.
  destruct (new_TracelinkClient_defaults
              {[ "access_token" := JStr "secret" ]})
    as (client & Hnew & _ & _ & Hformat & Hcharset & _);
    [vm_compute; reflexivity|].
  exists client. split; [exact Hnew|].
  split; [apply Hformat|apply Hcharset]; reflexivity.
Defined.

Ltac header_lookup :=
  repeat (rewrite lookup_insert_ne by done);
  rewrite ?lookup_insert_eq, ?lookup_empty; done.

(** X7: the headers of a request are [x-access-token], [Content-Type:
    application/json] and [Accept], always; [X-Charset: CP850] exactly
    when the charset of the client is ['CP850']; [Idempotency-Key]
    exactly when the call has a truthy [idempotency_key]; and no other
    header. *)
Theorem request_headers_names (this : TracelinkClient) (options : obj) :
  request_headers this options !! "x-access-token"
    = Some (ToString (access_token this)) ∧
  request_headers this options !! "Content-Type" = Some "application/json" ∧
  request_headers this options !! "Accept"
    = Some (if strict_eq_string (format this) "xml"
            then "application/xml" else "application/json") ∧
  request_headers this options !! "X-Charset"
    = (if strict_eq_string (charset this) "CP850" then Some "CP850"
       else None) ∧
  request_headers this options !! "Idempotency-Key"
    = (if truthy (get_prop options "idempotency_key")
       then Some (ToString (get_prop options "idempotency_key"))
       else None) ∧
  dom (request_headers this options)
    ⊆ ({[ "x-access-token"; "Content-Type"; "Accept"; "X-Charset";
          "Idempotency-Key" ]} : gset string).
Proof.
  unfold request_headers. cbv zeta.
  destruct (strict_eq_string (charset this) "CP850"),
    (truthy (get_prop options "idempotency_key"));
    (split; [header_lookup|]; split; [header_lookup|];
     split; [header_lookup|]; split; [header_lookup|];
     split; [header_lookup|]);
    rewrite ?dom_insert_L, dom_empty_L; set_unfold; tauto.
Qed.

Lemma strict_eq_or_else (v : value) (d lit : string) :
  d ≠ lit → lit ≠ "" →
  strict_eq_string (or_else v (JStr d)) lit = strict_eq_string v lit.
Proof.
  intros Hd Hlit. unfold or_else.
  destruct v as [| |b|n|s|items|props]; simpl; try done;
    try by rewrite bool_decide_eq_false_2.
  - destruct b; simpl; [done|by rewrite bool_decide_eq_false_2].
  - destruct (n =? 0)%Z; simpl; [by rewrite bool_decide_eq_false_2|done].
  - destruct (decide (s = "")) as [->|Hs].
    + simpl. rewrite !bool_decide_eq_false_2; done.
    + by rewrite (bool_decide_eq_false_2 (s = "")).
Qed.

Lemma request_headers_charset (this : TracelinkClient) (options : obj) :
  request_headers this options !! "X-Charset"
  = if strict_eq_string (charset this) "CP850" then Some "CP850" else None.
Proof.
  unfold request_headers. cbv zeta.
  destruct (strict_eq_string (charset this) "CP850"),
    (truthy (get_prop options "idempotency_key")); header_lookup.
Qed.

Lemma request_headers_accept (this : TracelinkClient) (options : obj) :
  request_headers this options !! "Accept"
  = Some (if strict_eq_string (format this) "xml"
          then "application/xml" else "application/json").
Proof.
  unfold request_headers. cbv zeta.
  destruct (strict_eq_string (charset this) "CP850"),
    (truthy (get_prop options "idempotency_key")); header_lookup.
Qed.

Lemma request_headers_idempotency (this : TracelinkClient) (options : obj) :
  request_headers this options !! "Idempotency-Key"
  = if truthy (get_prop options "idempotency_key")
    then Some (ToString (get_prop options "idempotency_key")) else None.
Proof.
  unfold request_headers. cbv zeta.
  destruct (strict_eq_string (charset this) "CP850"),
    (truthy (get_prop options "idempotency_key")); header_lookup.
Qed.

(** X8: a client built from a configuration sends [X-Charset: CP850]
    exactly when the configured charset is the string ['CP850'] (never
    when it is left out), and [Accept: application/xml] exactly when the
    configured format is ['xml'], [application/json] otherwise. *)
Theorem constructed_client_headers (config options : obj)
    (client : TracelinkClient)
    (Hnew : new_TracelinkClient (Some config) = Normal client) :
  request_headers client options !! "X-Charset"
    = (if strict_eq_string (get_prop config "charset") "CP850"
       then Some "CP850" else None) ∧
  request_headers client options !! "Accept"
    = Some (if strict_eq_string (get_prop config "format") "xml"
            then "application/xml" else "application/json") ∧
  (config !! "charset" = None →
   request_headers client options !! "X-Charset" = None) ∧
  (config !! "format" = None →
   request_headers client options !! "Accept" = Some "application/json").
Proof.
  unfold new_TracelinkClient in Hnew.
  destruct (truthy (get_prop config "access_token")); [|done].
  simpl in Hnew. injection Hnew as <-.
  rewrite request_headers_charset, request_headers_accept. simpl.
  rewrite !strict_eq_or_else by done.
  split; [done|]. split; [done|].
  split; intros Hnone; unfold get_prop; by rewrite Hnone.
Qed.

Lemma constructed_client_headers_witness :
  request_headers Fixtures.client ∅ !! "X-Charset" = None ∧
  request_headers Fixtures.client ∅ !! "Accept" = Some "application/json".
Proof.
  destruct (constructed_client_headers
              {[ "access_token" := JStr "secret" ]} ∅ Fixtures.client)
    as (_ & _ & Hcharset & Hformat); [vm_compute; reflexivity|].
  split; [apply Hcharset|apply Hformat]; reflexivity.
Defined.

(** ** What reaches [fetch] *)

Lemma sent_header_idempotency (JSON_stringify : obj → string)
    (client : TracelinkClient) (endpoint : string) (body options : option obj) :
  sent_header JSON_stringify client (to_request endpoint body options)
    "Idempotency-Key"
  = if truthy (get_prop (or_empty options) "idempotency_key")
    then Some (ToString (get_prop (or_empty options) "idempotency_key"))
    else None.
Proof. unfold sent_header. simpl. apply request_headers_idempotency. Qed.

Lemma sent_request_list (JSON_stringify : obj → string)
    (client : TracelinkClient) (endpoint : string) (options : option obj) :
  sent_request JSON_stringify client
    (list_request endpoint "buildOrderParams" options)
  = Some {| url := BASE_URL +:+ endpoint; method := "POST";
            headers := request_headers client ∅;
            req_body := JSON_stringify (buildOrderParams options) |}.
Proof. by rewrite list_request_bound. Qed.

(** X9: the idempotency key of a call reaches the wire only through the
    methods that take request options.  Every create, update and
    add-module method sends [Idempotency-Key] exactly when its options
    hold a truthy [idempotency_key]; the get, list, delete, create-tag
    and upload methods never send it. *)
Theorem idempotency_key_forwarding (JSON_stringify : obj → string)
    (client : TracelinkClient) (data document : obj) (options : option obj)
    (id number_begin number_offset : value)
    (module_name to_module id_field : string) :
  let sent := sent_header JSON_stringify client in
  let key :=
    if truthy (get_prop (or_empty options) "idempotency_key")
    then Some (ToString (get_prop (or_empty options) "idempotency_key"))
    else None in
  (sent (OrderClient.create data options) "Idempotency-Key" = key ∧
   sent (OrderClient.createAutoNumbered data number_begin number_offset
           options) "Idempotency-Key" = key ∧
   sent (OrderClient.update id data options) "Idempotency-Key" = key ∧
   sent (OrderClient.addModule module_name data options) "Idempotency-Key"
     = key ∧
   sent (OrderClient.updateModule module_name data options)
     "Idempotency-Key" = key ∧
   sent (SuborderClient.create id data options) "Idempotency-Key" = key ∧
   sent (SuborderClient.update id data options) "Idempotency-Key" = key ∧
   sent (ObjectClient.create module_name data options) "Idempotency-Key"
     = key ∧
   sent (ObjectClient.update module_name data options) "Idempotency-Key"
     = key ∧
   sent (ObjectClient.createRelation module_name to_module data options)
     "Idempotency-Key" = key ∧
   sent (ObjectClient.updateRelation module_name to_module data options)
     "Idempotency-Key" = key) ∧
  (sent CompanyClient.get "Idempotency-Key" = None ∧
   sent UserClient.get "Idempotency-Key" = None ∧
   sent (OrderClient.get id) "Idempotency-Key" = None ∧
   sent (SuborderClient.get id) "Idempotency-Key" = None ∧
   sent (ObjectClient.get module_name id) "Idempotency-Key" = None ∧
   sent (OrderClient.delete id) "Idempotency-Key" = None ∧
   sent (SuborderClient.delete id) "Idempotency-Key" = None ∧
   sent (OrderClient.deleteModule module_name id_field id)
     "Idempotency-Key" = None ∧
   sent (ObjectClient.delete module_name id_field id) "Idempotency-Key"
     = None ∧
   sent (ObjectClient.deleteRelation module_name to_module id_field id)
     "Idempotency-Key" = None ∧
   sent (ObjectClient.createTag id number_begin) "Idempotency-Key" = None ∧
   sent (OrderClient.uploadDocument id document) "Idempotency-Key" = None ∧
   sent (ObjectClient.uploadDocument module_name id_field id document)
     "Idempotency-Key" = None) ∧
  (sent (CompanyClient.listDepartments options) "Idempotency-Key" = None ∧
   sent (UserClient.list options) "Idempotency-Key" = None ∧
   sent (UserClient.listGroups options) "Idempotency-Key" = None ∧
   sent (OrderClient.list options) "Idempotency-Key" = None ∧
   sent (OrderClient.listModule module_name id id options) "Idempotency-Key"
     = None ∧
   sent (ObjectClient.list module_name options) "Idempotency-Key" = None ∧
   sent (ObjectClient.listRelations module_name to_module id options)
     "Idempotency-Key" = None ∧
   sent (UtilClient.listDocuments module_name options) "Idempotency-Key"
     = None).
Proof.
  intros sent key. subst sent key.
  pose proof (sent_header_idempotency JSON_stringify client) as Hsome.
  assert (Hnone : ∀ endpoint body,
    sent_header JSON_stringify client (to_request endpoint body None)
      "Idempotency-Key" = None) by (intros; by rewrite Hsome).
  assert (Hlist : ∀ endpoint,
    sent_header JSON_stringify client
      (list_request endpoint "buildOrderParams" options) "Idempotency-Key"
    = None).
  { intros endpoint. unfold sent_header. rewrite sent_request_list.
    simpl. by rewrite request_headers_idempotency. }
  split; [|split].
  - unfold OrderClient.create, OrderClient.createAutoNumbered,
      OrderClient.update, OrderClient.addModule, OrderClient.updateModule,
      SuborderClient.create, SuborderClient.update, ObjectClient.create,
      ObjectClient.update, ObjectClient.createRelation,
      ObjectClient.updateRelation.
    cbv zeta. rewrite !Hsome. change (or_empty (Some ?o)) with o. tauto.
  - unfold CompanyClient.get, UserClient.get, OrderClient.get,
      SuborderClient.get, ObjectClient.get, OrderClient.delete,
      SuborderClient.delete, OrderClient.deleteModule, ObjectClient.delete,
      ObjectClient.deleteRelation, ObjectClient.createTag,
      OrderClient.uploadDocument, ObjectClient.uploadDocument.
    cbv zeta. rewrite !Hnone. tauto.
  - unfold CompanyClient.listDepartments, UserClient.list,
      UserClient.listGroups, OrderClient.list, OrderClient.listModule,
      ObjectClient.list, ObjectClient.listRelations,
      UtilClient.listDocuments.
    cbv zeta. rewrite !Hlist. tauto.
Qed.

(** X10: every list method except [SuborderClient.list] of
    [tracelink-client.js] sends the serialised
    [buildOrderParams(options)] as its request body, and every get
    method, which passes no body, sends the serialised empty object;
    each is a POST to the base URL followed by the endpoint, with the
    headers of a call without options.  [SuborderClient.list] of
    [tracelink-client.js] throws before anything is sent; in the
    ES-module build it sends like the other list methods. *)
Theorem list_and_get_requests (JSON_stringify : obj → string)
    (client : TracelinkClient) (options : option obj)
    (id order_sub_id : value) (module_name to_module : string) :
  let sends := transmits JSON_stringify client in
  let params := buildOrderParams options in
  (sends (CompanyClient.listDepartments options) "/company/dept/list" ∅
     params ∧
   sends (UserClient.list options) "/user/list" ∅ params ∧
   sends (UserClient.listGroups options) "/user/group/list" ∅ params ∧
   sends (OrderClient.list options) "/tracelink/order/list" ∅ params ∧
   (∃ endpoint : string,
      endpoint_of (OrderClient.listModule module_name id order_sub_id
                     options) = Some endpoint ∧
      sends (OrderClient.listModule module_name id order_sub_id options)
        endpoint ∅ params) ∧
   sends (ObjectClient.list module_name options)
     ("/object/list/module/" +:+ module_name) ∅ params ∧
   (∃ endpoint : string,
      endpoint_of (ObjectClient.listRelations module_name to_module id
                     options) = Some endpoint ∧
      sends (ObjectClient.listRelations module_name to_module id options)
        endpoint ∅ params) ∧
   sends (UtilClient.listDocuments module_name options)
     ("/util/doc/list/module/" +:+ module_name) ∅ params ∧
   sends (Esm.SuborderClient.list options) "/tracelink/suborder/list" ∅
     params) ∧
  (sent_request JSON_stringify client (SuborderClient.list options) = None ∧
   ∀ (fetch : HttpRequest → option HttpResponse) (σ : store),
     dispatch fetch JSON_stringify client (SuborderClient.list options) σ
     = (Throw (ReferenceError "build_order_params"), σ)) ∧
  (sends CompanyClient.get "/company" ∅ ∅ ∧
   sends UserClient.get "/user" ∅ ∅ ∧
   sends (OrderClient.get id) ("/tracelink/order/" +:+ ToString id) ∅ ∅ ∧
   sends (SuborderClient.get id) ("/tracelink/suborder/" +:+ ToString id)
     ∅ ∅ ∧
   sends (ObjectClient.get module_name id)
     ("/object/list/module/" +:+ module_name +:+ "/" +:+ ToString id) ∅ ∅) ∧
  sent_request JSON_stringify client (CompanyClient.listDepartments options)
    = Some {| url := BASE_URL +:+ "/company/dept/list"; method := "POST";
              headers := request_headers client ∅;
              req_body := JSON_stringify (buildOrderParams options) |} ∧
  sent_request JSON_stringify client (UserClient.list options)
    = Some {| url := BASE_URL +:+ "/user/list"; method := "POST";
              headers := request_headers client ∅;
              req_body := JSON_stringify (buildOrderParams options) |} ∧
  sent_request JSON_stringify client (OrderClient.list options)
    = Some {| url := BASE_URL +:+ "/tracelink/order/list"; method := "POST";
              headers := request_headers client ∅;
              req_body := JSON_stringify (buildOrderParams options) |} ∧
  sent_request JSON_stringify client (ObjectClient.list module_name options)
    = Some {| url := BASE_URL +:+ "/object/list/module/" +:+ module_name;
              method := "POST";
              headers := request_headers client ∅;
              req_body := JSON_stringify (buildOrderParams options) |} ∧
  sent_request JSON_stringify client
    (UtilClient.listDocuments module_name options)
    = Some {| url := BASE_URL +:+ "/util/doc/list/module/" +:+ module_name;
              method := "POST";
              headers := request_headers client ∅;
              req_body := JSON_stringify (buildOrderParams options) |} ∧
  sent_request JSON_stringify client CompanyClient.get
    = Some {| url := BASE_URL +:+ "/company"; method := "POST";
              headers := request_headers client ∅;
              req_body := JSON_stringify ∅ |} ∧
  sent_request JSON_stringify client (OrderClient.get id)
    = Some {| url := BASE_URL +:+ "/tracelink/order/" +:+ ToString id;
              method := "POST";
              headers := request_headers client ∅;
              req_body := JSON_stringify ∅ |} ∧
  sent_request JSON_stringify client (ObjectClient.get module_name id)
    = Some {| url := BASE_URL +:+ "/object/list/module/" +:+ module_name
                       +:+ "/" +:+ ToString id;
              method := "POST";
              headers := request_headers client ∅;
              req_body := JSON_stringify ∅ |}.
Proof.
  intros sends params. subst sends params.
  pose proof (transmits_list JSON_stringify client) as Hlist.
  pose proof (transmits_no_body JSON_stringify client) as Hget.
  assert (Hthrows : SuborderClient.list options
                    = Throw (ReferenceError "build_order_params"))
    by (apply list_request_unbound; discriminate).
  split; [|split; [|split]].
  - split; [exact (Hlist _ _)|]. split; [exact (Hlist _ _)|].
    split; [exact (Hlist _ _)|]. split; [exact (Hlist _ _)|].
    split.
    { unfold OrderClient.listModule. cbv zeta.
      eexists. split; [by rewrite list_request_bound|exact (Hlist _ _)]. }
    split; [exact (Hlist _ _)|].
    split.
    { unfold ObjectClient.listRelations. cbv zeta.
      eexists. split; [by rewrite list_request_bound|exact (Hlist _ _)]. }
    split; [exact (Hlist _ _)|exact (Hlist _ _)].
  - rewrite Hthrows. by split.
  - split; [exact (Hget _)|]. split; [exact (Hget _)|].
    split; [exact (Hget _)|]. split; [exact (Hget _)|exact (Hget _)].
  - unfold CompanyClient.listDepartments, UserClient.list, OrderClient.list,
      ObjectClient.list, UtilClient.listDocuments.
    rewrite !sent_request_list.
    split; [done|]. split; [done|]. split; [done|]. split; [done|].
    split; [done|]. split; [done|]. split; done.
Qed.

(** ** Bodies assembled from several fields *)

Lemma object_literal_snoc_field (items : list literal_item) (k : string)
    (v : value) (k' : string) :
  object_literal (items ++ [Field k v]) !! k'
  = if decide (k' = k) then Some v else object_literal items !! k'.
Proof.
  unfold object_literal. rewrite foldl_app. simpl.
  destruct (decide (k' = k)) as [->|Hne].
  - by rewrite lookup_insert_eq.
  - by rewrite lookup_insert_ne.
Qed.

Lemma object_literal_spread (data : obj) : object_literal [Spread data] = data.
Proof. unfold object_literal. simpl. by rewrite (right_id ∅ (∪)). Qed.

Lemma or_default_cases (x d : value) :
  or_default x d = match x with JUndefined => d | _ => x end.
Proof. by destruct x. Qed.

(** X11: [order.createAutoNumbered] sends the data fields together with
    [use_numbering = 1], [number_begin] and [number_offset].  The three
    numbering fields are written after the data, so they replace fields
    of the same name in [data]; the start and the increment default to
    1000 and 1 only when the argument is [undefined], so an explicit 0
    or [null] is sent as given.  The object is posted to the create
    endpoint: running the method calls [fetch] on the POST to
    [/tracelink/order/create] whose body is the serialised
    [{object: o}], with the headers of the call's options. *)
Theorem createAutoNumbered_fields (JSON_stringify : obj → string)
    (client : TracelinkClient) (data : obj)
    (number_begin number_offset : value) (options : option obj)
    (k : string) :
  ∃ o : obj,
    body_object (OrderClient.createAutoNumbered data number_begin
                   number_offset options) = Some o ∧
    endpoint_of (OrderClient.createAutoNumbered data number_begin
                   number_offset options)
      = endpoint_of (OrderClient.create data options) ∧
    o !! "use_numbering" = Some (JNum 1) ∧
    o !! "number_begin"
      = Some (match number_begin with JUndefined => JNum 1000
              | _ => number_begin end) ∧
    o !! "number_offset"
      = Some (match number_offset with JUndefined => JNum 1
              | _ => number_offset end) ∧
    (k ≠ "use_numbering" → k ≠ "number_begin" → k ≠ "number_offset" →
     o !! k = data !! k) ∧
    transmits JSON_stringify client
      (OrderClient.createAutoNumbered data number_begin number_offset
         options)
      "/tracelink/order/create" (or_empty options)
      {[ "object" := JObj o ]}.
Proof.
  unfold OrderClient.createAutoNumbered. cbv zeta.
  eexists. split; [apply body_object_wrap|]. split; [done|].
  split; [|split; [|split; [|split]]].
  5: exact (transmits_wrap_object JSON_stringify client _ _
              (Some (or_empty options))).
  all: rewrite !or_default_cases;
    change [Spread data; Field "use_numbering" (JNum 1);
            Field "number_begin" ?b; Field "number_offset" ?c]
      with ((([Spread data] ++ [Field "use_numbering" (JNum 1)])
               ++ [Field "number_begin" b])%list
              ++ [Field "number_offset" c])%list;
    rewrite !object_literal_snoc_field, object_literal_spread.
  - done.
  - done.
  - done.
  - intros H1 H2 H3. by rewrite !decide_False.
Qed.

Lemma createAutoNumbered_fields_witness :
  ∃ o : obj,
    body_object (OrderClient.createAutoNumbered
                   {[ "name" := JStr "n"; "number_begin" := JNum 5 ]}
                   JUndefined (JNum 0) None) = Some o ∧
    o !! "number_begin" = Some (JNum 1000) ∧
    o !! "number_offset" = Some (JNum 0) ∧
    o !! "name" = Some (JStr "n").
Proof.
  destruct (createAutoNumbered_fields Fixtures.stringify Fixtures.client
              {[ "name" := JStr "n"; "number_begin" := JNum 5 ]}
              JUndefined (JNum 0) None "name")
    as (o & Hbody & _ & _ & Hbegin & Hoffset & Hother & _).
  exists o. split; [exact Hbody|]. split; [exact Hbegin|].
  split; [exact Hoffset|].
  rewrite Hother by discriminate. reflexivity.
Defined.

(** X12: an upload sends the document's [data], [filename] and [type]
    as [image_data_encoded], [image_description] and [image_type],
    beside the identifier, and nothing else.  In [object.uploadDocument]
    the identifier is written first under the caller's field name, so a
    field name equal to one of the three image fields is overwritten by
    the document field.  The object is what is sent: running the upload
    calls [fetch] on the POST to the update endpoint whose body is the
    serialised [{object: o}], without an idempotency option. *)
Theorem uploadDocument_fields (JSON_stringify : obj → string)
    (client : TracelinkClient) (order_id id_value : value)
    (module_name id_field : string) (document : obj) (k : string) :
  let image_fields (id_name : string) (id : value) : option value :=
    if decide (k = "image_type") then Some (get_prop document "type")
    else if decide (k = "image_description")
         then Some (get_prop document "filename")
    else if decide (k = "image_data_encoded")
         then Some (get_prop document "data")
    else if decide (k = id_name) then Some id else None in
  (∃ o : obj,
     body_object (OrderClient.uploadDocument order_id document) = Some o ∧
     o !! k = image_fields "order_id" order_id ∧
     transmits JSON_stringify client
       (OrderClient.uploadDocument order_id document)
       "/tracelink/order/update" ∅ {[ "object" := JObj o ]}) ∧
  (∃ o : obj,
     body_object (ObjectClient.uploadDocument module_name id_field id_value
                    document) = Some o ∧
     o !! k = image_fields id_field id_value ∧
     transmits JSON_stringify client
       (ObjectClient.uploadDocument module_name id_field id_value document)
       ("/object/update/" +:+ module_name) ∅ {[ "object" := JObj o ]}) ∧
  endpoint_of (OrderClient.uploadDocument order_id document)
    = Some "/tracelink/order/update" ∧
  endpoint_of (ObjectClient.uploadDocument module_name id_field id_value
                 document) = Some ("/object/update/" +:+ module_name).
Proof.
  intros image_fields. subst image_fields.
  assert (Hlit : ∀ id_name id,
    object_literal
      [Field id_name id;
       Field "image_data_encoded" (get_prop document "data");
       Field "image_description" (get_prop document "filename");
       Field "image_type" (get_prop document "type")] !! k
    = if decide (k = "image_type") then Some (get_prop document "type")
      else if decide (k = "image_description")
           then Some (get_prop document "filename")
      else if decide (k = "image_data_encoded")
           then Some (get_prop document "data")
      else if decide (k = id_name) then Some id else None).
  { intros id_name id.
    change [Field id_name id; Field "image_data_encoded" ?a;
            Field "image_description" ?b; Field "image_type" ?c]
      with (((([] ++ [Field id_name id])
               ++ [Field "image_data_encoded" a])%list
               ++ [Field "image_description" b])%list
              ++ [Field "image_type" c])%list.
    rewrite !object_literal_snoc_field.
    by repeat case_decide. }
  pose proof (transmits_wrap_object JSON_stringify client) as Hsent.
  split; [|split; [|split; done]].
  - eexists. split; [apply body_object_wrap|].
    split; [apply Hlit|exact (Hsent _ _ None)].
  - eexists. split; [apply body_object_wrap|].
    split; [apply Hlit|exact (Hsent _ _ None)].
Qed.

(** X13: [object.listRelations] appends the target id to the path
    exactly when the id is truthy, so an id that is 0, empty, [null] or
    left out lists the relations of the whole target module; the body is
    [buildOrderParams(options)] in either case. *)
Theorem listRelations_endpoint (from_module to_module : string)
    (to_module_id : value) (options : option obj) :
  let base := "/object/module/list/" +:+ from_module +:+ "/to/" +:+ to_module in
  endpoint_of (ObjectClient.listRelations from_module to_module to_module_id
                 options)
    = Some (if truthy to_module_id
            then base +:+ "/" +:+ ToString to_module_id else base) ∧
  body_of (ObjectClient.listRelations from_module to_module to_module_id
             options) = Some (buildOrderParams options) ∧
  endpoint_of (ObjectClient.listRelations from_module to_module (JNum 0)
                 options) = Some base ∧
  endpoint_of (ObjectClient.listRelations from_module to_module (JStr "")
                 options) = Some base ∧
  endpoint_of (ObjectClient.listRelations from_module to_module JNull
                 options) = Some base ∧
  endpoint_of (ObjectClient.listRelations from_module to_module JUndefined
                 options) = Some base ∧
  endpoint_of (ObjectClient.listRelations "genobj" "customer" (JNum 12) None)
    = Some "/object/module/list/genobj/to/customer/12".
Proof.
  intros base. unfold ObjectClient.listRelations. cbv zeta.
  rewrite !list_request_bound. cbn [endpoint_of body_of arg_endpoint arg_body].
  split; [by destruct (truthy to_module_id)|].
  split; [done|]. split; [done|]. split; [done|]. split; [done|].
  split; [done|]. vm_compute. reflexivity.
Qed.

(** ** The dispatcher and the store *)

Lemma request_fetch_rejects (fetch : HttpRequest → option HttpResponse)
    (JSON_stringify : obj → string) (this : TracelinkClient)
    (endpoint : string) (body options : option obj) (σ : store) :
  fetch (fetch_call JSON_stringify this endpoint (or_empty body)
           (or_empty options)) = None →
  request fetch JSON_stringify this endpoint body options σ
  = (Throw TransportError, σ).
Proof.
  intros Hnone. unfold request. cbv zeta.
  unfold bind at 1. unfold await at 1. by rewrite Hnone.
Qed.

Lemma request_json_rejects (fetch : HttpRequest → option HttpResponse)
    (JSON_stringify : obj → string) (this : TracelinkClient)
    (endpoint : string) (body options : option obj) (σ : store)
    (resp : HttpResponse) :
  fetch (fetch_call JSON_stringify this endpoint (or_empty body)
           (or_empty options)) = Some resp →
  resp_json resp = None →
  request fetch JSON_stringify this endpoint body options σ
  = (Throw TransportError, σ).
Proof.
  intros Hfetch Hnone. unfold request. cbv zeta.
  unfold bind at 1. unfold await at 1. rewrite Hfetch. unfold ret at 1.
  unfold bind at 1. unfold await at 1. by rewrite Hnone.
Qed.

(** X14: when [fetch] rejects, or [response.json()] rejects, the
    request ends with that failure, the store is left as it was and no
    [TracelinkError] is made.  When the body parses to an envelope
    object, the outcome is never a transport failure and exactly one
    object has been added to the store. *)
Theorem request_transport_failure (fetch : HttpRequest → option HttpResponse)
    (JSON_stringify : obj → string) (this : TracelinkClient)
    (endpoint : string) (body options : option obj) (σ : store) :
  let run := request fetch JSON_stringify this endpoint body options σ in
  match fetch (fetch_call JSON_stringify this endpoint (or_empty body)
                 (or_empty options)) with
  | None => run = (Throw TransportError, σ)
  | Some resp =>
      match resp_json resp with
      | None => run = (Throw TransportError, σ)
      | Some env =>
          run.1 ≠ Throw TransportError ∧ length run.2 = S (length σ)
      end
  end.
Proof.
  intros run. subst run.
  destruct (fetch _) as [resp|] eqn:Hfetch;
    [|by apply request_fetch_rejects].
  destruct (resp_json resp) as [env|] eqn:Hjson;
    [|by eapply request_json_rejects].
  rewrite (request_run _ _ _ _ _ _ _ resp env Hfetch Hjson). cbv zeta.
  cbn [fst snd]. split.
  - by destruct (strict_eq_string (get_prop env "status") "error").
  - rewrite length_app. simpl. lia.
Qed.

(** X15: a request never touches an object that is already in the
    store: every existing reference reads the same object afterwards,
    whatever the transport does.  A reference that is returned is a new
    one. *)
Theorem request_preserves_store (fetch : HttpRequest → option HttpResponse)
    (JSON_stringify : obj → string) (this : TracelinkClient)
    (endpoint : string) (body options : option obj) (σ : store)
    (l : loc) (o : obj) (Hl : σ !! l = Some o) :
  let run := request fetch JSON_stringify this endpoint body options σ in
  run.2 !! l = Some o ∧
  (∀ data : loc,
     run.1 = Normal data →
     data ≠ l ∧ σ !! data = None ∧ is_Some (run.2 !! data)).
Proof.
  intros run. subst run.
  destruct (fetch (fetch_call JSON_stringify this endpoint (or_empty body)
                     (or_empty options))) as [resp|] eqn:Hfetch.
  2: { rewrite request_fetch_rejects by done. by split. }
  destruct (resp_json resp) as [env|] eqn:Hjson.
  2: { rewrite (request_json_rejects _ _ _ _ _ _ _ resp) by done.
       by split. }
  rewrite (request_run _ _ _ _ _ _ _ resp env Hfetch Hjson). cbv zeta.
  cbn [fst snd]. split.
  - by apply lookup_app_l_Some.
  - intros data Hdata.
    destruct (strict_eq_string (get_prop env "status") "error"); [done|].
    injection Hdata as <-.
    assert (Hfresh : σ !! length σ = None) by by apply lookup_ge_None.
    split; [intros Heq; rewrite Heq in Hfresh; congruence|].
    split; [done|].
    rewrite store_lookup_alloc. by eexists.
Qed.

Lemma request_preserves_store_witness :
  (request Fixtures.cached_error Fixtures.stringify Fixtures.client
     "/user" None None [Fixtures.error_envelope]).2 !! 0
  = Some Fixtures.error_envelope.
Proof.
  refine (proj1 (request_preserves_store Fixtures.cached_error
                   Fixtures.stringify Fixtures.client "/user" None None
                   [Fixtures.error_envelope] 0 Fixtures.error_envelope _)).
  reflexivity.
Defined.

(** X16: on the success path the returned reference holds the parsed
    envelope; when the [X-ResultFromCache] header has a non-empty value
    the envelope has [_cached] set to [true] and [_idempotency_key] set
    to that value, replacing fields of those names that the service
    sent, and a header that is absent or empty changes nothing. *)
Theorem request_success_annotation
    (fetch : HttpRequest → option HttpResponse)
    (JSON_stringify : obj → string) (this : TracelinkClient)
    (endpoint : string) (body options : option obj) (σ : store)
    (resp : HttpResponse) (env : obj)
    (Hfetch : fetch (fetch_call JSON_stringify this endpoint (or_empty body)
                       (or_empty options)) = Some resp)
    (Hjson : resp_json resp = Some env)
    (Hok : get_prop env "status" ≠ JStr "error") :
  ∃ envelope : obj,
    request fetch JSON_stringify this endpoint body options σ
      = (Normal (length σ), (σ ++ [envelope])%list) ∧
    match resp_headers resp !! "X-ResultFromCache" with
    | Some key =>
        if decide (key = "") then envelope = env
        else envelope = <["_idempotency_key" := JStr key]>
                          (<["_cached" := JBool true]> env)
    | None => envelope = env
    end.
Proof.
  rewrite (request_run _ _ _ _ _ _ _ resp env Hfetch Hjson). cbv zeta.
  destruct (strict_eq_string (get_prop env "status") "error") eqn:E.
  { by apply strict_eq_string_true in E. }
  eexists. split; [reflexivity|].
  unfold headers_get.
  destruct (resp_headers resp !! "X-ResultFromCache") as [key|]; [|done].
  simpl. destruct (decide (key = "")) as [->|Hkey]; [done|].
  by rewrite bool_decide_eq_false_2.
Qed.

Lemma request_success_annotation_witness :
  ∃ envelope : obj,
    request (fun _ => Some {| resp_headers := {[ "X-ResultFromCache" := "k" ]};
                              resp_json := Some {[ "status" := JStr "ok" ]} |})
      Fixtures.stringify Fixtures.client "/user" None None []
    = (Normal 0, [envelope]) ∧
    envelope = <["_idempotency_key" := JStr "k"]>
                 (<["_cached" := JBool true]> {[ "status" := JStr "ok" ]}).
Proof.
  destruct (request_success_annotation
              (fun _ => Some {| resp_headers := {[ "X-ResultFromCache" := "k" ]};
                                resp_json := Some {[ "status" := JStr "ok" ]} |})
              Fixtures.stringify Fixtures.client "/user" None None []
              {| resp_headers := {[ "X-ResultFromCache" := "k" ]};
                 resp_json := Some {[ "status" := JStr "ok" ]} |}
              {[ "status" := JStr "ok" ]} eq_refl eq_refl)
    as (envelope & Hrun & Hann); [vm_compute; discriminate|].
  exists envelope. split; [exact Hrun|exact Hann].
Defined.

(** X17: two requests in a row, the first of which succeeds, give two
    different envelope objects.  The second request, whether it returns
    or throws, leaves the envelope of the first as the first request
    left it, and an error it throws refers to the second envelope. *)
Theorem sequential_requests (fetch1 fetch2 : HttpRequest → option HttpResponse)
    (JSON_stringify : obj → string) (this : TracelinkClient)
    (endpoint1 endpoint2 : string) (body1 options1 body2 options2 : option obj)
    (σ : store) (resp1 resp2 : HttpResponse) (env1 env2 : obj)
    (Hfetch1 : fetch1 (fetch_call JSON_stringify this endpoint1
                         (or_empty body1) (or_empty options1)) = Some resp1)
    (Hjson1 : resp_json resp1 = Some env1)
    (Hok1 : get_prop env1 "status" ≠ JStr "error")
    (Hfetch2 : fetch2 (fetch_call JSON_stringify this endpoint2
                         (or_empty body2) (or_empty options2)) = Some resp2)
    (Hjson2 : resp_json resp2 = Some env2) :
  let first :=
    request fetch1 JSON_stringify this endpoint1 body1 options1 σ in
  let both :=
    (l1 <- request fetch1 JSON_stringify this endpoint1 body1 options1 ;;
     l2 <- request fetch2 JSON_stringify this endpoint2 body2 options2 ;;
     ret (l1, l2))%js σ in
  ∃ envelope1 envelope2 : obj,
    first = (Normal (length σ), (σ ++ [envelope1])%list) ∧
    both.2 = (σ ++ [envelope1; envelope2])%list ∧
    both.1 = (if strict_eq_string (get_prop env2 "status") "error"
              then Throw (ApiError
                     {| name := "TracelinkError";
                        message := Error_message (get_prop env2 "message");
                        code := get_prop env2 "code";
                        response := Some (S (length σ)) |})
              else Normal (length σ, S (length σ))).
Proof.
  intros first both. subst first both.
  set (envelope1 :=
         if truthy (headers_get resp1 "X-ResultFromCache")
         then <["_idempotency_key" := headers_get resp1 "X-ResultFromCache"]>
                (<["_cached" := JBool true]> env1)
         else env1).
  set (envelope2 :=
         if truthy (headers_get resp2 "X-ResultFromCache")
         then <["_idempotency_key" := headers_get resp2 "X-ResultFromCache"]>
                (<["_cached" := JBool true]> env2)
         else env2).
  assert (Hrun1 :
    request fetch1 JSON_stringify this endpoint1 body1 options1 σ
    = (Normal (length σ), (σ ++ [envelope1])%list)).
  { rewrite (request_run _ _ _ _ _ _ _ resp1 env1 Hfetch1 Hjson1). cbv zeta.
    destruct (strict_eq_string (get_prop env1 "status") "error") eqn:E;
      [|done].
    by apply strict_eq_string_true in E. }
  pose proof (request_run fetch2 JSON_stringify this endpoint2 body2 options2
                (σ ++ [envelope1])%list resp2 env2 Hfetch2 Hjson2) as Hrun2.
  cbv zeta in Hrun2. rewrite length_app, Nat.add_1_r in Hrun2. simpl in Hrun2.
  exists envelope1, envelope2. split; [exact Hrun1|].
  unfold bind. rewrite Hrun1, Hrun2. fold envelope2.
  destruct (strict_eq_string (get_prop env2 "status") "error"); simpl;
    (split; [by rewrite <- app_assoc|done]).
Qed.

Lemma sequential_requests_witness :
  ∃ envelope1 envelope2 : obj,
    request (fun _ => Some {| resp_headers := ∅;
                              resp_json := Some {[ "status" := JStr "ok" ]} |})
      Fixtures.stringify Fixtures.client "/user" None None []
    = (Normal 0, [envelope1]) ∧
    ((l1 <- request (fun _ => Some {| resp_headers := ∅;
                                      resp_json := Some {[ "status" := JStr "ok" ]} |})
              Fixtures.stringify Fixtures.client "/user" None None ;;
      l2 <- request Fixtures.cached_error Fixtures.stringify Fixtures.client
              "/company" None None ;;
      ret (l1, l2))%js []).2 = [envelope1; envelope2].
Proof.
  destruct (sequential_requests
              (fun _ => Some {| resp_headers := ∅;
                                resp_json := Some {[ "status" := JStr "ok" ]} |})
              Fixtures.cached_error Fixtures.stringify Fixtures.client
              "/user" "/company" None None None None []
              {| resp_headers := ∅;
                 resp_json := Some {[ "status" := JStr "ok" ]} |}
              {| resp_headers := {[ "X-ResultFromCache" := "key-1" ]};
                 resp_json := Some Fixtures.error_envelope |}
              {[ "status" := JStr "ok" ]} Fixtures.error_envelope
              eq_refl eq_refl)
    as (envelope1 & envelope2 & Hfirst & Hstore & _);
    [vm_compute; discriminate|reflexivity|reflexivity|].
  exists envelope1, envelope2. split; [exact Hfirst|exact Hstore].
Defined.

(** ** One sort field or a sequence of one *)

Lemma get_prop_insert_ne (o : obj) (k k' : string) (v : value) :
  k ≠ k' → get_prop (<[k' := v]> o) k = get_prop o k.
Proof. intros Hne. unfold get_prop. by rewrite lookup_insert_ne. Qed.

(** X18: a sort given as a sequence of one non-empty name is the same
    request as that name given as a string.  For the empty name the two
    differ: the sequence still sends an (empty) [order.sort], the string
    sends none. *)
Theorem buildOrderParams_singleton_sort (options : obj) (s : string)
  (Hs : s ≠ "") :
  buildOrderParams (Some (<["sort" := JArr [JStr s]]> options))
    = buildOrderParams (Some (<["sort" := JStr s]> options)) ∧
  order_field
    (buildOrderParams (Some (<["sort" := JArr [JStr ""]]> options))) "sort"
    = Some (JStr "") ∧
  order_field
    (buildOrderParams (Some (<["sort" := JStr ""]> options))) "sort" = None.
Proof.
  split; [|split].
  - unfold buildOrderParams.
    change (or_empty (Some ?o)) with o. cbv zeta.
    rewrite !get_prop_insert, !get_prop_insert_ne by done.
    simpl. rewrite bool_decide_eq_false_2 by done. simpl.
    unfold Array_join. simpl. reflexivity.
  - by rewrite order_field_sort, get_prop_insert.
  - by rewrite order_field_sort, get_prop_insert.
Qed.

Lemma buildOrderParams_singleton_sort_witness :
  buildOrderParams (Some (<["sort" := JArr [JStr "name"]]> ∅))
  = buildOrderParams (Some (<["sort" := JStr "name"]> ∅)).
Proof.
  refine (proj1 (buildOrderParams_singleton_sort ∅ "name" _)). discriminate.
Defined.
